(** * The Great Combinator: editor adapters and combination engine

    A shallow embedding of the two editor adapters of the repository
    (the VS Code extension, [vscode-ext/src/extension.ts], and the Visual
    Studio command [TgcTempCommand]) and of the combination engine they
    drive, together with the properties stated about them.

    Side effects (messages, clipboard writes, process starts) are modelled
    as an ordered trace of actions.  Everything the adapters obtain from
    Node, the VS Code API or .NET is gathered in a [Host] structure, so the
    functions below are the source's functions with the platform made an
    explicit argument.  [console.log] calls are not part of the trace. *)

From Stdlib Require Import List String Ascii Bool Arith ZArith Lia.
From Stdlib Require Import Permutation Sorted DecimalString Strings.Byte.
Import ListNotations.
Open Scope list_scope.
Open Scope string_scope.
Set Warnings "-register-all".

(* ================================================================== *)
(** * Shared data *)
(* ================================================================== *)

(** The JSON values the adapters serialise onto the engine's input. *)
Inductive Json : Type :=
| JString (s : string)
| JArray (items : list Json)
| JObject (fields : list (string * Json)).

(** Member lookup in a serialised object; [None] when the key is omitted. *)
Fixpoint assoc_lookup {A : Type} (k : string) (kvs : list (string * A)) : option A :=
  match kvs with
  | [] => None
  | (k', v) :: rest => if (k' =? k)%string then Some v else assoc_lookup k rest
  end.

Definition member (k : string) (j : Json) : option Json :=
  match j with
  | JObject fields => assoc_lookup k fields
  | _ => None
  end.

(** Decimal rendering of integers, as [String(n)] and [$"{n}"] give for
    integral values. *)
Definition string_of_nat (n : nat) : string := NilEmpty.string_of_uint (Nat.to_uint n).
Definition string_of_Z (z : Z) : string := NilEmpty.string_of_int (Z.to_int z).

(** A command line read as flag/value pairs: positions 0,2,4,.. are flags,
    each followed by its value. *)
Fixpoint flag_pairs (argv : list string) : list (string * string) :=
  match argv with
  | f :: v :: rest => (f, v) :: flag_pairs rest
  | _ => []
  end.

Definition includes_flag (argv : list string) (flag value : string) : Prop :=
  In (flag, value) (flag_pairs argv).

Definition has_flag (argv : list string) (flag : string) : Prop :=
  In flag (map fst (flag_pairs argv)).

Definition newline : string := String (ascii_of_nat 10) EmptyString.

(** ASCII white space, the part of the host's [trim] that byte strings
    can express. *)
Definition is_space (c : ascii) : bool :=
  let n := nat_of_ascii c in
  ((n =? 32) || ((9 <=? n) && (n <=? 13)))%nat.

Fixpoint trim_start (s : string) : string :=
  match s with
  | String c rest => if is_space c then trim_start rest else s
  | EmptyString => EmptyString
  end.

Fixpoint trim_end (s : string) : string :=
  match s with
  | EmptyString => EmptyString
  | String c rest =>
      match trim_end rest with
      | EmptyString => if is_space c then EmptyString else String c EmptyString
      | t => String c t
      end
  end.

Definition ascii_trim (s : string) : string := trim_end (trim_start s).

(* ================================================================== *)
(** * The VS Code extension ([vscode-ext/src/extension.ts]) *)
(* ================================================================== *)

Module VSCodeExt.

(** The [tgc.*] settings read by the extension; the values the extension
    casts to a type are taken to be present, as the contributed defaults
    make them. *)
Record Settings : Type := {
  coreBinPath : option string;
  headerFormat : string;
  separator : string;
  maxFileSizeKB : Z;
  skipBinary : bool;
  onTempOpen : option string
}.

(** What the extension reads from Node and from the VS Code API. *)
Class Host : Type := {
  platform : string;                       (* process.platform *)
  arch : string;                           (* process.arch *)
  homedir : string;                        (* os.homedir() *)
  env_TGC_CORE_BIN : option string;        (* process.env.TGC_CORE_BIN *)
  existsSync : string -> bool;             (* fs.existsSync *)
  path_join : list string -> string;       (* path.join(...) *)
  path_resolve : list string -> string;    (* path.resolve(...) *)
  path_basename : string -> string;        (* path.basename *)
  str_trim : string -> string;             (* String.prototype.trim *)
  str_replace : string -> string -> string -> string;
                                           (* s.replace(pattern, by) *)
  workspaceFolder : option string;         (* workspace.workspaceFolders?.[0]?.uri.fsPath *)
  configuration : Settings                 (* workspace.getConfiguration('tgc') *)
}.

Record ExtensionContext : Type := {
  extensionPath : string;
  asAbsolutePath : string -> string
}.

Record Uri : Type := { fsPath : string }.

Inductive Mode : Type := clipboard | temp.

Definition mode_name (m : Mode) : string :=
  match m with clipboard => "clipboard" | temp => "temp" end.

(** The observable actions of the extension, in the order performed. *)
Inductive Action : Type :=
| ShowWarningMessage (msg : string)
| ShowErrorMessage (msg : string)
| ShowInformationMessage (msg : string)
| Spawn (file : string) (args : list string) (stdin : Json)
| ClipboardWriteText (text : string)
| ShowTextDocument (file : string)
| RevealFileInOS (file : string)
| CopyFileToClipboard (file : string).

Definition is_spawn (a : Action) : bool :=
  match a with Spawn _ _ _ => true | _ => false end.

Definition clipboard_writes (tr : list Action) : list string :=
  flat_map (fun a => match a with ClipboardWriteText t => [t] | _ => [] end) tr.

Definition error_messages (tr : list Action) : list string :=
  flat_map (fun a => match a with ShowErrorMessage t => [t] | _ => [] end) tr.

(** JavaScript truthiness of a possibly absent string. *)
Definition truthy (p : option string) : bool :=
  match p with
  | Some s => negb (s =? "")%string
  | None => false
  end.

(** [a || null] on strings. *)
Definition or_null (p : option string) : option string :=
  if truthy p then p else None.

Definition starts_with_tilde (p : string) : bool :=
  match p with
  | String c _ => (c =? "~")%char
  | EmptyString => false
  end.

Definition slice1 (p : string) : string :=
  match p with
  | String _ rest => rest
  | EmptyString => EmptyString
  end.

Section Extension.
Context `{Host}.

Definition pathExists (p : option string) : bool :=
  match p with
  | Some s => truthy p && existsSync s
  | None => false
  end.

Definition expand (p : string) : string :=
  if starts_with_tilde p then path_join [homedir; slice1 p]
  else str_replace p "${workspaceFolder}"
         (match workspaceFolder with Some wf => wf | None => "" end).

Definition repoRootFromExtension (context : ExtensionContext) : string :=
  path_resolve [extensionPath context; ".."].

Definition tryDebugBinFromRepo (context : ExtensionContext) (exe : string) : option string :=
  let repoRoot := repoRootFromExtension context in
  let p := path_join [repoRoot; "target"; "debug"; exe] in
  if pathExists (Some p) then Some p else None.

Definition tryDebugBinFromWorkspace (exe : string) : option string :=
  if truthy workspaceFolder then
    match workspaceFolder with
    | Some wf =>
        let p := path_join [wf; "target"; "debug"; exe] in
        if pathExists (Some p) then Some p else None
    | None => None
    end
  else None.

Definition tryPackagedBin (context : ExtensionContext) (exe : string) : option string :=
  let dir := platform ++ "-" ++ arch in
  let p := asAbsolutePath context (path_join ["bin"; dir; exe]) in
  if pathExists (Some p) then Some p else None.

Definition whichOnPath (exe : string) : option string := Some exe.

Definition exe_name : string :=
  if (platform =? "win32")%string then "the-great-combinator.exe"
  else "the-great-combinator".

Definition cfgExpanded : string :=
  let cfgPath :=
    str_trim (match or_null (coreBinPath configuration) with
              | Some s => s
              | None => ""
              end) in
  if truthy (Some cfgPath) then expand cfgPath else "".

(** The array built by [pickBinary], after [.filter(Boolean)]. *)
Definition candidates (context : ExtensionContext) : list string :=
  let exe := exe_name in
  flat_map (fun c => match or_null c with Some s => [s] | None => [] end)
    [ or_null (Some cfgExpanded);
      or_null env_TGC_CORE_BIN;
      tryDebugBinFromRepo context exe;
      tryDebugBinFromWorkspace exe;
      tryPackagedBin context exe;
      whichOnPath exe ].

(** The [for (const c of candidates)] loop; [None] when it falls through. *)
Fixpoint pick_loop (cs : list string) : option string :=
  match cs with
  | [] => None
  | c :: rest =>
      if (path_basename c =? c)%string then Some c
      else if pathExists (Some c) then Some c
      else pick_loop rest
  end.

Definition pickBinary (context : ExtensionContext) : string :=
  match pick_loop (candidates context) with
  | Some c => c
  | None => exe_name
  end.

(** [picks] of [run]: the multi-selection when it is a non-empty array,
    else the single uri, else nothing. *)
Definition picks_of (uri : option Uri) (uris : option (list Uri)) : list Uri :=
  match uris with
  | Some (u :: us) => u :: us
  | _ => match uri with Some u => [u] | None => [] end
  end.

(** [JSON.stringify] drops a member whose value is [undefined]. *)
Definition request_payload (picks : list Uri) : Json :=
  JObject (("paths", JArray (map (fun u => JString (fsPath u)) picks))
           :: match workspaceFolder with
              | Some wf => [("workspace_root", JString wf)]
              | None => []
              end).

(** The [args] array of [run].  The source keeps the entry that would pass
    [--skip-binary] from [tgc.skipBinary] as a comment, so it is not part
    of the array. *)
Definition run_args (mode : Mode) : list string :=
  let cfg := configuration in
  [ "--mode"; mode_name mode;
    "--header-format"; headerFormat cfg;
    "--separator"; separator cfg;
    "--max-kb"; string_of_Z (maxFileSizeKB cfg) ].

(** [run] up to the point where the child process has been started and
    fed its input. *)
Definition run (mode : Mode) (context : ExtensionContext)
    (uri : option Uri) (uris : option (list Uri)) : list Action :=
  let picks := picks_of uri uris in
  match picks with
  | [] => [ShowWarningMessage
             "No files selected! Right-click on files/folders in Explorer first."]
  | _ =>
      let payload := request_payload picks in
      let args := run_args mode in
      let binaryPath := pickBinary context in
      [Spawn binaryPath args payload]
  end.

(** The ['error'] handler of [run], for a process that could not be
    started. *)
Definition on_error (message : string) : list Action :=
  [ShowErrorMessage ("Failed to start CLI: " ++ message)].

(** Rendering of the exit code in the failure message; [None] is the
    [null] code of a child killed by a signal. *)
Definition code_text (code : option Z) : string :=
  match code with Some z => string_of_Z z | None => "null" end.

Definition action_is (action : option string) (name : string) : bool :=
  match action with Some a => (a =? name)%string | None => false end.

(** The ['close'] handler of [run].  [copy_ok] is the outcome of
    [copyFileToClipboard] should the handler call it. *)
Definition on_close (mode : Mode) (picks : list Uri) (out err : string)
    (copy_ok : bool) (code : option Z) : list Action :=
  match code with
  | Some 0%Z =>
      let result := str_trim out in
      match mode with
      | clipboard =>
          [ ClipboardWriteText result;
            ShowInformationMessage
              ("✅ Combined " ++ string_of_nat (List.length picks) ++ " files to clipboard!") ]
      | temp =>
          let action := onTempOpen configuration in
          ((if action_is action "openAndReveal" || action_is action "openOnly"
            then [ShowTextDocument result] else [])
           ++ (if action_is action "openAndReveal" || action_is action "revealOnly"
               then [RevealFileInOS result] else [])
           ++ (if action_is action "copyPath" then
                [ ClipboardWriteText result;
                  ShowInformationMessage "✅ Temp file created and path copied to clipboard!" ]
              else if action_is action "copyAsFile" then
                CopyFileToClipboard result ::
                (if copy_ok then
                   [ShowInformationMessage "✅ Temp file copied as attachment! Use Ctrl+V to paste."]
                 else
                   [ ShowWarningMessage "⚠️ Failed to copy file as attachment. Path copied instead.";
                     ClipboardWriteText result ])
              else if action_is action "none" then
                [ShowInformationMessage ("✅ Temp file created: " ++ result)]
              else
                [ShowInformationMessage ("✅ Created temp file: " ++ result)]))%list
      end
  | _ =>
      [ShowErrorMessage
         ("CLI failed (code: " ++ code_text code ++ ")" ++ newline
          ++ "Stdout: " ++ out ++ newline ++ "Stderr: " ++ err)]
  end.

(** ** [copyFileToClipboard] *)

(** The [spawn] call of [copyFileToClipboard]: the command, its arguments
    and what is then written on the child's input (only on Linux, where
    the input is a pipe). *)
Record HelperSpawn : Type := {
  helper_cmd : string;
  helper_args : list string;
  helper_stdin : option string
}.

(** What came of the call: a ['close'] event with its code, an ['error']
    event (which is also how a helper that could not be started is
    reported: no process need have run), or [spawn] itself throwing. *)
Inductive ChildOutcome : Type :=
| Closed (code : option Z)
| Errored
| SpawnThrew.

Definition double_quote : string := String (ascii_of_nat 34) EmptyString.

(** [filePath.replace(/'/g, "''")] with the pattern and the replacement of
    the source: every apostrophe becomes two. *)
Fixpoint double_apostrophes (s : string) : string :=
  match s with
  | EmptyString => EmptyString
  | String c rest =>
      if (c =? "'")%char then String "'" (String "'" (double_apostrophes rest))
      else String c (double_apostrophes rest)
  end.

(** The PowerShell script of the Windows branch, around the file path. *)
Definition powershell_prefix : string :=
  "Add-Type -AssemblyName System.Windows.Forms; "
  ++ "[System.Windows.Forms.Clipboard]::SetFileDropList([System.Collections.Specialized.StringCollection]@('".

Definition powershell_suffix : string :=
  ")); " ++ "Write-Host 'File copied to clipboard'".

(** The platforms [copyFileToClipboard] has a helper for. *)
Definition supported_platform : bool :=
  (platform =? "linux")%string || (platform =? "darwin")%string
  || (platform =? "win32")%string.

(** The platform switch of [copyFileToClipboard]; [None] on a platform it
    does not support. *)
Definition clipboard_helper (filePath : string) : option HelperSpawn :=
  let fileUri := "file://" ++ filePath in
  if (platform =? "linux")%string then
    Some {| helper_cmd := "xclip";
            helper_args := ["-selection"; "clipboard"; "-t"; "text/uri-list"];
            helper_stdin := Some fileUri |}
  else if (platform =? "darwin")%string then
    Some {| helper_cmd := "osascript";
            helper_args :=
              ["-e"; "set the clipboard to POSIX file " ++ double_quote ++ filePath
                     ++ double_quote ++ " as «class furl»"];
            helper_stdin := None |}
  else if (platform =? "win32")%string then
    Some {| helper_cmd := "powershell";
            helper_args :=
              ["-Command";
               powershell_prefix ++ double_apostrophes filePath ++ "'"
               ++ powershell_suffix];
            helper_stdin := None |}
  else None.

(** [copyFileToClipboard]: the [spawn] call it makes, if any, and the
    boolean its promise resolves to.  On a platform without helper no
    call is made; when the call throws, nothing is written on the input. *)
Definition copyFileToClipboard (filePath : string) (outcome : ChildOutcome)
  : option HelperSpawn * bool :=
  match clipboard_helper filePath with
  | None => (None, false)
  | Some h =>
      match outcome with
      | SpawnThrew =>
          (Some {| helper_cmd := helper_cmd h;
                   helper_args := helper_args h;
                   helper_stdin := None |}, false)
      | Errored => (Some h, false)
      | Closed (Some 0%Z) => (Some h, true)
      | Closed _ => (Some h, false)
      end
  end.

(** ** [debugRun] *)

(** [debugRun] up to the point where the child has been started and fed
    its input (the [cwd] and [stdio] options are not part of the trace,
    nor is the report the source makes when [spawn] itself throws). *)
Definition debugRun : list Action :=
  if truthy workspaceFolder then
    match workspaceFolder with
    | Some workspace_root =>
        let binName := exe_name in
        let debugBinPath := path_join [workspace_root; "target"; "debug"; binName] in
        let testInput :=
          JObject [ ("paths", JArray [JString (path_join [workspace_root; "README.md"])]);
                    ("workspace_root", JString workspace_root) ] in
        [Spawn debugBinPath ["--mode"; "clipboard"] testInput]
    | None => [ShowErrorMessage "Open workspace first!"]
    end
  else [ShowErrorMessage "Open workspace first!"].


(** ** [activate] *)

Definition Handler : Type := option Uri -> option (list Uri) -> list Action.

(** The commands [activate] registers, and the message it shows. *)
Definition activate (context : ExtensionContext) : list (string * Handler) * list Action :=
  let copyCommand := ("tgc.copy", fun uri uris => run clipboard context uri uris) in
  let tempCommand := ("tgc.temp", fun uri uris => run temp context uri uris) in
  let debugCommand := ("tgc.debug", fun (_ : option Uri) (_ : option (list Uri)) => debugRun) in
  ([copyCommand; tempCommand; debugCommand],
   [ShowInformationMessage "🎉 Tgc Extension is ready!"]).

(** Invoking a command by name once the extension is active; [None] for
    a name that was not registered. *)
Definition executeCommand (context : ExtensionContext) (name : string)
    (uri : option Uri) (uris : option (list Uri)) : option (list Action) :=
  option_map (fun h : Handler => h uri uris)
             (assoc_lookup name (fst (activate context))).

(** The messages of a trace, of any severity. *)
Definition messages (tr : list Action) : list string :=
  flat_map (fun a => match a with
                     | ShowWarningMessage t | ShowErrorMessage t
                     | ShowInformationMessage t => [t]
                     | _ => []
                     end) tr.

Definition opened_documents (tr : list Action) : list string :=
  flat_map (fun a => match a with ShowTextDocument f => [f] | _ => [] end) tr.

Definition revealed_files (tr : list Action) : list string :=
  flat_map (fun a => match a with RevealFileInOS f => [f] | _ => [] end) tr.

Definition attachment_copies (tr : list Action) : list string :=
  flat_map (fun a => match a with CopyFileToClipboard f => [f] | _ => [] end) tr.

(** Everything a trace hands on: what it writes to the clipboard, opens,
    reveals or copies as an attachment. *)
Definition targets (tr : list Action) : list string :=
  (clipboard_writes tr ++ opened_documents tr ++ revealed_files tr
   ++ attachment_copies tr)%list.

(** *** PowerShell's single-quoted literals

    Strings hold the UTF-8 bytes of a text.  PowerShell takes five
    characters for a single quote: the apostrophe U+0027 and the
    typographic U+2018, U+2019, U+201A and U+201B (bytes E2 80 98 to
    E2 80 9B).  Inside a literal, a single quote followed by a single
    quote stands for the second one; a single quote followed by anything
    else closes the literal. *)

Definition typographic_quote_bytes (c d e : ascii) : bool :=
  ((nat_of_ascii c =? 226) && (nat_of_ascii d =? 128)
   && (152 <=? nat_of_ascii e) && (nat_of_ascii e <=? 155))%nat.

(** The width in bytes of the single-quote character a text starts with;
    0 when it starts with none. *)
Definition quote_width (s : string) : nat :=
  match s with
  | String c rest =>
      if (c =? "'")%char then 1
      else match rest with
           | String d (String e _) => if typographic_quote_bytes c d e then 3 else 0
           | _ => 0
           end
  | EmptyString => 0
  end.

(** The reader's state: [Copying n] has [n] more bytes of a quoted quote
    to copy before it scans again ([Copying 0] scans); [Dropping n] has
    [n] more bytes of a single quote to pass over, after which
    ([Dropping 0]) it stands right behind that quote. *)
Inductive Reading : Type := Dropping (n : nat) | Copying (n : nat).

Definition keep (c : ascii) (r : option (string * string)) : option (string * string) :=
  option_map (fun p => (String c (fst p), snd p)) r.

(** Reading the body of a single-quoted literal up to its closing quote:
    the text read and what follows the literal; [None] when the literal
    is not closed. *)
Fixpoint read_single_quoted (st : Reading) (s : string) {struct s}
  : option (string * string) :=
  match st with
  | Dropping (S n) =>
      match s with
      | String _ rest => read_single_quoted (Dropping n) rest
      | EmptyString => None
      end
  | Dropping 0 =>
      match quote_width s with
      | 0 => Some (EmptyString, s)
      | S w =>
          match s with
          | String c rest => keep c (read_single_quoted (Copying w) rest)
          | EmptyString => None
          end
      end
  | Copying (S n) =>
      match s with
      | String c rest => keep c (read_single_quoted (Copying n) rest)
      | EmptyString => None
      end
  | Copying 0 =>
      match s with
      | String c rest =>
          match quote_width s with
          | 0 => keep c (read_single_quoted (Copying 0) rest)
          | S w => read_single_quoted (Dropping w) rest
          end
      | EmptyString => None
      end
  end.

(** The text holds none of the typographic single quotes. *)
Fixpoint no_typographic_quote (s : string) : bool :=
  match s with
  | EmptyString => true
  | String c rest => negb (quote_width s =? 3)%nat && no_typographic_quote rest
  end.

Fixpoint no_apostrophe (s : string) : bool :=
  match s with
  | EmptyString => true
  | String c rest => negb (c =? "'")%char && no_apostrophe rest
  end.

End Extension.

End VSCodeExt.

(* ================================================================== *)
(** * The Visual Studio command ([TgcTempCommand]) *)
(* ================================================================== *)

Module VsExt.

Inductive SolutionItemType : Type :=
| PhysicalFile
| PhysicalFolder
| OtherItem.          (* projects, solution folders, virtual items, ... *)

Record SolutionItem : Type := {
  Type_ : SolutionItemType;
  FullPath : string
}.

Inductive SearchOption : Type := TopDirectoryOnly | AllDirectories.

Record ProcessStartInfo : Type := {
  FileName : string;
  Arguments : string;
  RedirectStandardInput : bool;
  RedirectStandardOutput : bool;
  RedirectStandardError : bool;
  UseShellExecute : bool;
  CreateNoWindow : bool
}.

Record ProcessResult : Type := {
  StandardOutput : string;
  StandardError : string;
  ExitCode : Z
}.

(** What the command obtains from .NET and Visual Studio.
    [EnumerateFiles] answers [None] when the enumeration throws.
    [run_process] is the engine process started, fed and run to its end;
    a start or a write that throws is not among its answers. *)
Class Host : Type := {
  EnumerateFiles : string -> string -> SearchOption -> option (list string);
  str_Trim : string -> string;                         (* String.Trim() *)
  run_process : ProcessStartInfo -> Json -> ProcessResult
}.

Inductive Action : Type :=
| MessageBoxShow (title text : string)
| MessageBoxShowError (title text : string)
| StartCli (psi : ProcessStartInfo) (stdin : Json)
| StatusBarShowMessage (text : string)
| ProcessStart (file args : string).

Definition dquote : string := String (ascii_of_nat 34) EmptyString.

Definition PathToCli : string := "C:\Tools\the-great-combinator.exe".

(** The [Arguments] literal of [ExecuteAsync], after C# escape processing:
    an escaped quote is a double quote character and an escaped backslash
    before n is a backslash followed by the letter n. *)
Definition cli_arguments : string :=
  "--mode temp --header-format " ++ dquote ++ "file ${index}: ${relpath}" ++ dquote
  ++ " --separator " ++ dquote ++ "\n\n" ++ dquote
  ++ " --max-kb 1024 --skip-binary true".

Definition psi : ProcessStartInfo := {|
  FileName := PathToCli;
  Arguments := cli_arguments;
  RedirectStandardInput := true;
  RedirectStandardOutput := true;
  RedirectStandardError := true;
  UseShellExecute := false;
  CreateNoWindow := true
|}.

(** Splitting of a Windows command line into arguments, by the rules of the
    C runtime the started process applies: blanks separate arguments
    outside double quotes, a double quote toggles quoting and is dropped,
    and backslashes are literal unless they precede a double quote (then
    each pair gives one backslash and an odd one escapes the quote). *)
Fixpoint backslashes (n : nat) : string :=
  match n with O => EmptyString | S k => String "\" (backslashes k) end.

Definition push_arg (cur : option string) (done : list string) : list string :=
  match cur with Some a => (done ++ [a])%list | None => done end.

Definition cur_text (cur : option string) : string :=
  match cur with Some a => a | None => EmptyString end.

Fixpoint split_loop (s : string) (done : list string) (cur : option string)
    (in_quotes : bool) (bs : nat) : list string :=
  match s with
  | EmptyString =>
      push_arg (match bs with
                | O => cur
                | _ => Some (cur_text cur ++ backslashes bs)
                end) done
  | String c rest =>
      if (c =? "\")%char then split_loop rest done cur in_quotes (S bs)
      else if (nat_of_ascii c =? 34)%nat then
        let kept := cur_text cur ++ backslashes (Nat.div2 bs) in
        if Nat.even bs
        then split_loop rest done (Some kept) (negb in_quotes) 0
        else split_loop rest done (Some (kept ++ dquote)) in_quotes 0
      else
        let cur' := match bs with
                    | O => cur
                    | _ => Some (cur_text cur ++ backslashes bs)
                    end in
        if (negb in_quotes) && ((c =? " ")%char || (nat_of_ascii c =? 9)%nat)
        then split_loop rest (push_arg cur' done) None false 0
        else split_loop rest done (Some (cur_text cur' ++ String c EmptyString)) in_quotes 0
  end.

Definition split_command_line (s : string) : list string :=
  split_loop s [] None false 0.

Section Command.
Context `{Host}.

(** The [foreach] over the selection; [None] when an enumeration throws. *)
Fixpoint collect_paths (selection : list SolutionItem) (paths : list string)
  : option (list string) :=
  match selection with
  | [] => Some paths
  | item :: rest =>
      let paths1 :=
        match Type_ item with
        | PhysicalFile => (paths ++ [FullPath item])%list
        | _ => paths
        end in
      match Type_ item with
      | PhysicalFolder =>
          match EnumerateFiles (FullPath item) "*" AllDirectories with
          | Some files => collect_paths rest (paths1 ++ files)%list
          | None => None
          end
      | _ => collect_paths rest paths1
      end
  end.

(** What one selected item contributes: a file itself, a folder all the
    files beneath it, anything else nothing. *)
Definition expand_item (item : SolutionItem) : option (list string) :=
  match Type_ item with
  | PhysicalFile => Some [FullPath item]
  | PhysicalFolder => EnumerateFiles (FullPath item) "*" AllDirectories
  | OtherItem => Some []
  end.

(** [JsonSerializer.Serialize(new { paths = paths, workspace_root = "" })]. *)
Definition payload_of (paths : list string) : Json :=
  JObject [ ("paths", JArray (map JString paths));
            ("workspace_root", JString "") ].

(** [ExecuteAsync] on the active selection; [None] when it throws while
    gathering the paths (nothing has been done by then). *)
Definition ExecuteAsync (selection : list SolutionItem) : option (list Action) :=
  match collect_paths selection [] with
  | None => None
  | Some [] => Some [MessageBoxShow "The Great Combinator" "No selection"]
  | Some paths =>
      let payload := payload_of paths in
      let p := run_process psi payload in
      Some (StartCli psi payload ::
            if negb (ExitCode p =? 0)%Z then
              [MessageBoxShowError "The Great Combinator"
                 (if (0 <? String.length (StandardError p))%nat
                  then StandardError p else "CLI failed")]
            else
              let tempPath := str_Trim (StandardOutput p) in
              [ StatusBarShowMessage
                  ("The Great Combinator: Created temp file: " ++ tempPath);
                ProcessStart "explorer.exe" ("/select," ++ tempPath) ])
  end.

End Command.

(** The engine invocations in a trace. *)
Definition cli_starts (tr : list Action) : list (ProcessStartInfo * Json) :=
  flat_map (fun a => match a with StartCli i j => [(i, j)] | _ => [] end) tr.

(** The processes other than the engine that a trace starts. *)
Definition process_starts (tr : list Action) : list (string * string) :=
  flat_map (fun a => match a with ProcessStart f args => [(f, args)] | _ => [] end) tr.

Definition error_boxes (tr : list Action) : list string :=
  flat_map (fun a => match a with MessageBoxShowError _ t => [t] | _ => [] end) tr.

End VsExt.

(* ================================================================== *)
(** * The staging script ([scripts/build-all.sh]) *)
(* ================================================================== *)

Module BuildAll.



End BuildAll.

(* ================================================================== *)
(** * The combination engine *)
(* ================================================================== *)

(** The engine's own source ([core/src/main.rs]) is not among the files
    verified here; its components are modelled from their written
    contracts.  The filesystem is a tree, a path is the list of names from
    the root, and whatever may differ between two runs on the same tree
    (the order in which the system lists a directory, the name picked for a
    temporary file) is an [Oracle] handed to the run. *)
Module Engine.

Definition Path : Type := list string.

Inductive Node : Type :=
| File (data : option (list byte))             (* [None]: reading fails *)
| Dir (entries : list (string * Node)).

Inductive Mode : Type := Clipboard | Temp.

Record Config : Type := {
  mode : Mode;
  header_format : string;
  separator : string;
  max_kb : nat;
  skip_binary : bool;
  debug : bool
}.

Record Request : Type := {
  paths : list Path;
  workspace_root : option Path
}.

Inductive Status : Type :=
| Included
| SkippedBinary
| SkippedTooLarge
| SkippedUnreadable.

Record ResolvedFile : Type := {
  absolute_path : Path;
  relative_path : string;
  status : Status;
  size_bytes : nat;
  content : option string
}.

Record CombinedBlock : Type := {
  index : nat;
  header_text : string;
  body_text : string
}.

Inductive Error : Type := InputError | ValidationError | OutputError.

Record Output : Type := {
  stdout : string;
  temp_file : option (Path * string)      (* the file created, with its content *)
}.

(** Text decoding, left open by the contract: which byte sequences are
    valid text, how the others are replaced, and how long the inspected
    prefix is. *)
Class TextCodec : Type := {
  valid_text : list byte -> bool;
  decode_lossy : list byte -> string;
  sample_len : nat
}.

Record Oracle : Type := {
  readdir_order : forall A : Type, list (string * A) -> list (string * A);
  mktemp : option Path                    (* [None]: creation fails *)
}.

(** A file met by the traversal: its path and, when it exists, its bytes. *)
Record Entry : Type := {
  entry_path : Path;
  entry_found : bool;
  entry_data : option (list byte)
}.

Fixpoint path_eqb (p q : Path) : bool :=
  match p, q with
  | [], [] => true
  | a :: p', b :: q' => (a =? b)%string && path_eqb p' q'
  | _, _ => false
  end.


Definition seen_before (p : Path) (seen : list Path) : bool :=
  existsb (path_eqb p) seen.

Fixpoint lookup (n : Node) (p : Path) : option Node :=
  match p with
  | [] => Some n
  | name :: rest =>
      match n with
      | Dir es =>
          match assoc_lookup name es with
          | Some c => lookup c rest
          | None => None
          end
      | File _ => None
      end
  end.

(** Lexical order within a directory: insertion sort on the entry name. *)
Fixpoint insert_by_name {A : Type} (e : string * A) (l : list (string * A))
  : list (string * A) :=
  match l with
  | [] => [e]
  | x :: rest =>
      if (fst e <=? fst x)%string then e :: x :: rest
      else x :: insert_by_name e rest
  end.

Definition sort_by_name {A : Type} (l : list (string * A)) : list (string * A) :=
  fold_right insert_by_name [] l.

Definition name_le {A : Type} (a b : string * A) : Prop :=
  (fst a <=? fst b)%string = true.

(** Modelled from the spec: the Path Resolver's directory expansion (the
    engine source is absent).  All regular files beneath a node, full
    depth, each directory's entries taken as the system lists them and put
    in lexical order. *)
Fixpoint files_under (o : Oracle) (here : Path) (n : Node) : list Entry :=
  match n with
  | File d => [ {| entry_path := here; entry_found := true; entry_data := d |} ]
  | Dir es =>
      let listed :=
        map (fun e => match e with
                      | (name, c) => (name, files_under o (here ++ [name])%list c)
                      end) es in
      List.concat (map snd (sort_by_name (readdir_order o _ listed)))
  end.

(** One input entry: a file directly, a directory expanded, a missing
    entry recorded (it will be classified unreadable). *)
Definition traverse_entry (o : Oracle) (fs : Node) (p : Path) : list Entry :=
  match lookup fs p with
  | Some n => files_under o p n
  | None => [ {| entry_path := p; entry_found := false; entry_data := None |} ]
  end.

(** The input-order traversal, repeats included. *)
Definition traversal (o : Oracle) (fs : Node) (req : Request) : list Entry :=
  flat_map (traverse_entry o fs) (paths req).

Fixpoint dedup_seen (seen : list Path) (l : list Entry) : list Entry :=
  match l with
  | [] => []
  | e :: rest =>
      if seen_before (entry_path e) seen then dedup_seen seen rest
      else e :: dedup_seen (entry_path e :: seen) rest
  end.

Definition dedup (l : list Entry) : list Entry := dedup_seen [] l.

(** Modelled from the spec: the Path Resolver (the engine source is
    absent): traversal in input order, each file kept at its first
    encounter only. *)
Definition resolve (o : Oracle) (fs : Node) (req : Request) : list Entry :=
  dedup (traversal o fs req).

(** ** Display paths *)

Fixpoint slash_join (p : Path) : string :=
  match p with
  | [] => ""
  | [a] => a
  | a :: rest => a ++ "/" ++ slash_join rest
  end.

Definition display_abs (p : Path) : string := "/" ++ slash_join p.

Fixpoint strip_prefix (root p : Path) : option Path :=
  match root, p with
  | [], _ => Some p
  | r :: root', c :: p' => if (r =? c)%string then strip_prefix root' p' else None
  | _ :: _, [] => None
  end.

Fixpoint common_prefix (p q : Path) : Path :=
  match p, q with
  | a :: p', b :: q' => if (a =? b)%string then a :: common_prefix p' q' else []
  | _, _ => []
  end.

Definition common_ancestor (ps : list Path) : Path :=
  match map (@removelast string) ps with
  | [] => []
  | d :: ds => fold_left common_prefix ds d
  end.

Definition relpath_of (root : option Path) (ancestor p : Path) : string :=
  let base := match root with Some r => r | None => ancestor end in
  match root, base with
  | None, [] => display_abs p
  | _, _ =>
      match strip_prefix base p with
      | Some rel => slash_join rel
      | None => display_abs p
      end
  end.

(** ** File Loader *)

Section WithCodec.
Context `{TextCodec}.

Definition max_size_bytes (cfg : Config) : nat := max_kb cfg * 1024.

Definition is_nul (b : byte) : bool := Byte.eqb b x00.

Definition looks_binary (sample : list byte) : bool :=
  existsb is_nul sample || negb (valid_text sample).

(** Modelled from the spec: the File Loader's classification (the engine
    source is absent): read up to the ceiling plus one probe byte, size
    check first, binary check only under the skip-binary policy. *)
Definition classify (cfg : Config) (data : option (list byte)) : Status * option string :=
  match data with
  | None => (SkippedUnreadable, None)
  | Some bytes =>
      let probe := firstn (max_size_bytes cfg + 1) bytes in
      if (max_size_bytes cfg <? List.length probe)%nat then (SkippedTooLarge, None)
      else if skip_binary cfg && looks_binary (firstn sample_len probe)
      then (SkippedBinary, None)
      else (Included, Some (decode_lossy probe))
  end.

Definition load (cfg : Config) (root : option Path) (ancestor : Path) (e : Entry)
  : ResolvedFile :=
  let c := classify cfg (entry_data e) in
  {| absolute_path := entry_path e;
     relative_path := relpath_of root ancestor (entry_path e);
     status := fst c;
     size_bytes := match entry_data e with Some b => List.length b | None => 0 end;
     content := snd c |}.

Definition resolved (cfg : Config) (o : Oracle) (fs : Node) (req : Request)
  : list ResolvedFile :=
  let es := resolve o fs req in
  let ancestor := common_ancestor (map entry_path es) in
  map (load cfg (workspace_root req) ancestor) es.

End WithCodec.

(** ** Formatter *)

Definition tab : string := String (ascii_of_nat 9) EmptyString.
Definition carriage_return : string := String (ascii_of_nat 13) EmptyString.

(** Decoding of the escape sequences of a raw configuration string. *)
Fixpoint unescape (s : string) : string :=
  match s with
  | EmptyString => EmptyString
  | String c rest =>
      match rest with
      | String d rest' =>
          if (c =? "\")%char then
            if (d =? "n")%char then newline ++ unescape rest'
            else if (d =? "t")%char then tab ++ unescape rest'
            else if (d =? "r")%char then carriage_return ++ unescape rest'
            else if (d =? "\")%char then String "\" (unescape rest')
            else String c (unescape rest)
          else String c (unescape rest)
      | EmptyString => String c EmptyString
      end
  end.

(** The closed-vocabulary token replacer: [skip] counts the characters of
    a placeholder still to be dropped after its replacement was written. *)
Fixpoint render_from (skip : nat) (idx relpath template : string) : string :=
  match template with
  | EmptyString => EmptyString
  | String c rest =>
      match skip with
      | S k => render_from k idx relpath rest
      | O =>
          if prefix "${index}" template then idx ++ render_from 7 idx relpath rest
          else if prefix "${relpath}" template then relpath ++ render_from 9 idx relpath rest
          else String c (render_from 0 idx relpath rest)
      end
  end.

Definition render (template : string) (i : nat) (relpath : string) : string :=
  render_from 0 (string_of_nat i) relpath template.

(** Modelled from the spec: the Formatter's block assignment (the engine
    source is absent): a running 1-based index that only included files
    consume. *)
Fixpoint blocks_from (template : string) (next : nat) (files : list ResolvedFile)
  : list CombinedBlock :=
  match files with
  | [] => []
  | f :: rest =>
      match status f, content f with
      | Included, Some body =>
          {| index := next;
             header_text := render template next (relative_path f);
             body_text := body |} :: blocks_from template (S next) rest
      | _, _ => blocks_from template next rest
      end
  end.

Definition blocks (cfg : Config) (files : list ResolvedFile) : list CombinedBlock :=
  blocks_from (unescape (header_format cfg)) 1 files.

(** A block is its header, a line break, and the file's text. *)
Definition block_text (b : CombinedBlock) : string :=
  header_text b ++ newline ++ body_text b.

Fixpoint join_loop (sep acc : string) (bs : list string) : string :=
  match bs with
  | [] => acc
  | b :: rest => join_loop sep (acc ++ sep ++ b) rest
  end.

Definition join_blocks (sep : string) (bs : list string) : string :=
  match bs with
  | [] => ""
  | b :: rest => join_loop sep b rest
  end.



(** *** What the formatter's output is compared with

    The contract's words, written as relations that do not mention the
    formatter's functions. *)





(** Modelled from the spec: the Formatter's joined text (the engine source
    is absent). *)
Definition combined (cfg : Config) (files : list ResolvedFile) : string :=
  join_blocks (unescape (separator cfg)) (map block_text (blocks cfg files)).

(** ** Output Sink and the whole run *)

Definition is_included (f : ResolvedFile) : bool :=
  match status f with Included => true | _ => false end.

Section Run.
Context `{TextCodec}.

(** Modelled from the spec: the Output Sink and the run around it (the
    engine source is absent).  The sink has one text to deliver, the
    fully joined, trimmed text: clipboard mode writes it to the primary
    output, temp mode writes it into a new file and prints that file's
    path.  (The contract names the text once, with the clipboard sink,
    and then says that temp mode writes the joined text; it is read here
    as the same text, which is what the stated equivalence of the two
    modes requires.) *)
Definition run (cfg : Config) (o : Oracle) (fs : Node) (req : Request)
  : Error + Output :=
  match paths req with
  | [] => inl InputError
  | _ =>
      let files := resolved cfg o fs req in
      if negb (existsb entry_found (resolve o fs req)) then inl ValidationError
      else
        let text := ascii_trim (combined cfg files) in
        match mode cfg with
        | Clipboard => inr {| stdout := text; temp_file := None |}
        | Temp =>
            match mktemp o with
            | Some p =>
                match lookup fs p with
                | None => inr {| stdout := ascii_trim (display_abs p);
                                 temp_file := Some (p, text) |}
                | Some _ => inl OutputError
                end
            | None => inl OutputError
            end
        end
  end.

End Run.


(** Well-formed trees: no directory lists a name twice. *)
Fixpoint distinct_names (names : list string) : bool :=
  match names with
  | [] => true
  | a :: rest => negb (existsb (String.eqb a) rest) && distinct_names rest
  end.

Fixpoint well_formed (n : Node) : bool :=
  match n with
  | File _ => true
  | Dir es =>
      distinct_names (map fst es)
      && forallb (fun e => match e with (_, c) => well_formed c end) es
  end.

(** An oracle lists every directory entry once, in some order. *)
Definition lists_faithfully (o : Oracle) : Prop :=
  forall (A : Type) (l : list (string * A)), Permutation (readdir_order o A l) l.

End Engine.

(* ================================================================== *)
(** * The two callers side by side *)
(* ================================================================== *)

Inductive Caller : Type :=
| VSCodeRun (m : VSCodeExt.Mode)
| VisualStudioTemp.

(** The argument vector the engine process receives from a caller. *)
Definition command_line `{VSCodeExt.Host} (c : Caller) : list string :=
  match c with
  | VSCodeRun m => VSCodeExt.run_args m
  | VisualStudioTemp => VsExt.split_command_line (VsExt.Arguments VsExt.psi)
  end.

Definition bool_text (b : bool) : string := if b then "true" else "false".

(** [argv] is the command line of an engine process that the caller
    starts on some selection. *)
Definition launched `{VSCodeExt.Host} (c : Caller) (argv : list string) : Prop :=
  match c with
  | VSCodeRun m =>
      exists context uri uris file stdin,
        In (VSCodeExt.Spawn file argv stdin) (VSCodeExt.run m context uri uris)
  | VisualStudioTemp =>
      exists (vs : VsExt.Host) selection trace i request,
        VsExt.ExecuteAsync selection = Some trace
        /\ In (i, request) (VsExt.cli_starts trace)
        /\ argv = VsExt.split_command_line (VsExt.Arguments i)
  end.

(** The skip-binary flag is on the command line with the value of the
    user's [tgc.skipBinary] setting. *)
Definition passes_skip_binary_setting `{VSCodeExt.Host} (argv : list string) : Prop :=
  includes_flag argv "--skip-binary"
    (bool_text (VSCodeExt.skipBinary VSCodeExt.configuration)).

(** ** The search order of [pickBinary], as two readings *)

Section PickOrder.
Context `{VSCodeExt.Host}.
Import VSCodeExt.

(** The candidate paths in search order, before any check.  The flag
    tells whether the candidate comes from the user (setting or
    environment) and so may be a bare command name. *)
Definition ordered_candidates (context : ExtensionContext)
  : list (bool * option string) :=
  [ (true, Some cfgExpanded);
    (true, env_TGC_CORE_BIN);
    (false, Some (path_join [repoRootFromExtension context; "target"; "debug"; exe_name]));
    (false, if truthy workspaceFolder
            then option_map (fun wf => path_join [wf; "target"; "debug"; exe_name])
                            workspaceFolder
            else None);
    (false, Some (asAbsolutePath context
                    (path_join ["bin"; platform ++ "-" ++ arch; exe_name]))) ].

Fixpoint first_such (ok : bool -> string -> bool) (cs : list (bool * option string))
  : option string :=
  match cs with
  | [] => None
  | (from_user, c) :: rest =>
      match or_null c with
      | Some s => if ok from_user s then Some s else first_such ok rest
      | None => first_such ok rest
      end
  end.

(** The search as the claim words it: the first candidate that exists on
    the filesystem, else the bare executable name. *)
Definition first_existing (context : ExtensionContext) : string :=
  match first_such (fun _ s => existsSync s) (ordered_candidates context) with
  | Some s => s
  | None => exe_name
  end.

(** The search with the bare-name rule: a candidate given by the user that
    has no directory part is taken as it stands, unchecked. *)
Definition is_bare (s : string) : bool := (path_basename s =? s)%string.

Definition first_bare_or_existing (context : ExtensionContext) : string :=
  match first_such (fun from_user s => (from_user && is_bare s) || existsSync s)
                   (ordered_candidates context) with
  | Some s => s
  | None => exe_name
  end.

(** What a candidate contributes to the array of [pickBinary]: the user's
    candidates as given, the others only when found. *)
Definition checked (c : option string) : option string :=
  match or_null c with
  | Some s => if existsSync s then Some s else None
  | None => None
  end.

Definition array_entry (stage : bool * option string) : list string :=
  match (if fst stage then or_null (snd stage) else checked (snd stage)) with
  | Some s => [s]
  | None => []
  end.

End PickOrder.

(* ================================================================== *)
(** * Sample hosts and inputs *)
(* ================================================================== *)

Module Samples.

(** POSIX-flavoured path functions, enough to evaluate the adapters. *)
Fixpoint basename_from (s acc : string) : string :=
  match s with
  | EmptyString => acc
  | String c rest =>
      if (c =? "/")%char then basename_from rest EmptyString
      else basename_from rest (acc ++ String c EmptyString)
  end.

Definition posix_basename (s : string) : string := basename_from s EmptyString.

Fixpoint posix_join (parts : list string) : string :=
  match parts with
  | [] => "."
  | [a] => a
  | a :: rest => a ++ "/" ++ posix_join rest
  end.

Fixpoint dirname_from (s : string) : string :=
  match s with
  | EmptyString => EmptyString
  | String c rest =>
      if existsb (fun d => (d =? "/")%char) (list_ascii_of_string rest)
      then String c (dirname_from rest)
      else EmptyString
  end.

Definition posix_resolve (parts : list string) : string :=
  match parts with
  | [p; ".."] => dirname_from p
  | _ => posix_join parts
  end.

Fixpoint replace_first (s pattern repl : string) : string :=
  match s with
  | EmptyString => EmptyString
  | String c rest =>
      if prefix pattern s
      then repl ++ substring (String.length pattern) (String.length s) s
      else String c (replace_first rest pattern repl)
  end.

Definition one_of (known : list string) (p : string) : bool :=
  existsb (String.eqb p) known.

Definition default_settings : VSCodeExt.Settings := {|
  VSCodeExt.coreBinPath := None;
  VSCodeExt.headerFormat := "File ${index}: ${relpath}";
  VSCodeExt.separator := "\n\n";
  VSCodeExt.maxFileSizeKB := 1024;
  VSCodeExt.skipBinary := true;
  VSCodeExt.onTempOpen := Some "copyAsFile"
|}.

Definition linux_host (settings : VSCodeExt.Settings) (env : option string)
    (existing : list string) : VSCodeExt.Host := {|
  VSCodeExt.platform := "linux";
  VSCodeExt.arch := "x64";
  VSCodeExt.homedir := "/home/dev";
  VSCodeExt.env_TGC_CORE_BIN := env;
  VSCodeExt.existsSync := one_of existing;
  VSCodeExt.path_join := posix_join;
  VSCodeExt.path_resolve := posix_resolve;
  VSCodeExt.path_basename := posix_basename;
  VSCodeExt.str_trim := ascii_trim;
  VSCodeExt.str_replace := replace_first;
  VSCodeExt.workspaceFolder := Some "/work/project";
  VSCodeExt.configuration := settings
|}.

(** A user who turned binary skipping off. *)
Definition skip_off_settings : VSCodeExt.Settings := {|
  VSCodeExt.coreBinPath := None;
  VSCodeExt.headerFormat := "File ${index}: ${relpath}";
  VSCodeExt.separator := "\n\n";
  VSCodeExt.maxFileSizeKB := 1024;
  VSCodeExt.skipBinary := false;
  VSCodeExt.onTempOpen := Some "copyAsFile"
|}.

Definition skip_off_host : VSCodeExt.Host :=
  linux_host skip_off_settings None [].

(** A bare command name in [tgc.coreBinPath] that names no file, while
    the environment variable points at an existing binary. *)
Definition bare_name_settings : VSCodeExt.Settings := {|
  VSCodeExt.coreBinPath := Some "tgc-dev";
  VSCodeExt.headerFormat := "File ${index}: ${relpath}";
  VSCodeExt.separator := "\n\n";
  VSCodeExt.maxFileSizeKB := 1024;
  VSCodeExt.skipBinary := true;
  VSCodeExt.onTempOpen := Some "copyAsFile"
|}.

Definition bare_name_host : VSCodeExt.Host :=
  linux_host bare_name_settings (Some "/opt/tgc/the-great-combinator")
             ["/opt/tgc/the-great-combinator"].

Definition sample_context : VSCodeExt.ExtensionContext := {|
  VSCodeExt.extensionPath := "/work/project/vscode-ext";
  VSCodeExt.asAbsolutePath := fun rel => "/work/project/vscode-ext/" ++ rel
|}.

Definition plain_host : VSCodeExt.Host :=
  linux_host default_settings None ["/work/project/target/debug/the-great-combinator"].

(** A Visual Studio machine with one folder holding two files. *)
Definition vs_host : VsExt.Host := {|
  VsExt.EnumerateFiles := fun dir pattern opt =>
    if (dir =? "C:\proj\src")%string
    then match opt with
         | VsExt.AllDirectories => Some ["C:\proj\src\a.cs"; "C:\proj\src\sub\b.cs"]
         | VsExt.TopDirectoryOnly => Some ["C:\proj\src\a.cs"]
         end
    else None;
  VsExt.str_Trim := ascii_trim;
  VsExt.run_process := fun _ _ =>
    {| VsExt.StandardOutput := "C:\Temp\tgc123.txt" ++ newline;
       VsExt.StandardError := "";
       VsExt.ExitCode := 0 |}
|}.

Definition vs_selection : list VsExt.SolutionItem :=
  [ {| VsExt.Type_ := VsExt.PhysicalFile; VsExt.FullPath := "C:\proj\README.md" |};
    {| VsExt.Type_ := VsExt.PhysicalFolder; VsExt.FullPath := "C:\proj\src" |};
    {| VsExt.Type_ := VsExt.OtherItem; VsExt.FullPath := "C:\proj\proj.csproj" |} ].

(** ** Engine samples *)

(** A codec for 7-bit text: bytes above 127 are invalid and decode to a
    question mark. *)
Definition ascii_codec : Engine.TextCodec := {|
  Engine.valid_text := forallb (fun b => (Byte.to_nat b <? 128)%nat);
  Engine.decode_lossy := fun bs =>
    string_of_list_byte
      (map (fun b => if (Byte.to_nat b <? 128)%nat then b else "?"%byte) bs);
  Engine.sample_len := 1024
|}.

Definition text_file (s : string) : Engine.Node :=
  Engine.File (Some (list_byte_of_string s)).

Definition sample_fs : Engine.Node :=
  Engine.Dir
    [ ("ws", Engine.Dir
        [ ("src", Engine.Dir [ ("b.txt", text_file ("B" ++ newline));
                               ("a.txt", text_file "A") ]);
          ("README.md", text_file ("Read me" ++ newline)) ]);
      ("tmp", Engine.Dir []) ].

(** Two runs: the system lists directories in opposite orders and the
    temporary files get different names. *)
Definition first_run : Engine.Oracle := {|
  Engine.readdir_order := fun A l => l;
  Engine.mktemp := Some ["tmp"; "tgc-1.txt"]
|}.

Definition second_run : Engine.Oracle := {|
  Engine.readdir_order := fun A l => rev l;
  Engine.mktemp := Some ["tmp"; "tgc-2.txt"]
|}.

Definition sample_config : Engine.Config := {|
  Engine.mode := Engine.Clipboard;
  Engine.header_format := "File ${index}: ${relpath}";
  Engine.separator := "\n---\n";
  Engine.max_kb := 1;
  Engine.skip_binary := true;
  Engine.debug := false
|}.

(** [b.txt] is listed explicitly and reached again through [src]. *)
Definition sample_request : Engine.Request := {|
  Engine.paths := [ ["ws"; "src"; "b.txt"]; ["ws"; "src"]; ["ws"; "README.md"] ];
  Engine.workspace_root := Some ["ws"]
|}.

Definition bytes_of_size (n : nat) : list byte := repeat "a"%byte n.

(** ** More hosts *)

Definition host_on (plat : string) (settings : VSCodeExt.Settings)
    (existing : list string) : VSCodeExt.Host := {|
  VSCodeExt.platform := plat;
  VSCodeExt.arch := "x64";
  VSCodeExt.homedir := "/home/dev";
  VSCodeExt.env_TGC_CORE_BIN := None;
  VSCodeExt.existsSync := one_of existing;
  VSCodeExt.path_join := posix_join;
  VSCodeExt.path_resolve := posix_resolve;
  VSCodeExt.path_basename := posix_basename;
  VSCodeExt.str_trim := ascii_trim;
  VSCodeExt.str_replace := replace_first;
  VSCodeExt.workspaceFolder := Some "/work/project";
  VSCodeExt.configuration := settings
|}.

(** The bundled binary has been staged; nothing else exists. *)
Definition packaged_host : VSCodeExt.Host :=
  host_on "linux" default_settings
          ["/work/project/vscode-ext/bin/linux-x64/the-great-combinator"].

(** A platform [copyFileToClipboard] has no helper for. *)
Definition freebsd_host : VSCodeExt.Host := host_on "freebsd" default_settings [].

(** The configured path exists, and so does the one in the environment. *)
Definition configured_settings : VSCodeExt.Settings := {|
  VSCodeExt.coreBinPath := Some "/opt/custom/tgc";
  VSCodeExt.headerFormat := "File ${index}: ${relpath}";
  VSCodeExt.separator := "\n\n";
  VSCodeExt.maxFileSizeKB := 1024;
  VSCodeExt.skipBinary := true;
  VSCodeExt.onTempOpen := Some "copyAsFile"
|}.

Definition configured_host : VSCodeExt.Host :=
  linux_host configured_settings (Some "/opt/tgc/the-great-combinator")
             ["/opt/custom/tgc"; "/opt/tgc/the-great-combinator"].

(** A Visual Studio machine on which one selected folder cannot be
    enumerated. *)
Definition vs_unreadable_selection : list VsExt.SolutionItem :=
  [ {| VsExt.Type_ := VsExt.PhysicalFile; VsExt.FullPath := "C:\proj\README.md" |};
    {| VsExt.Type_ := VsExt.PhysicalFolder; VsExt.FullPath := "C:\proj\locked" |} ].

(** The same machine with an engine that fails. *)
Definition vs_failing_host : VsExt.Host := {|
  VsExt.EnumerateFiles := @VsExt.EnumerateFiles vs_host;
  VsExt.str_Trim := ascii_trim;
  VsExt.run_process := fun _ _ =>
    {| VsExt.StandardOutput := "";
       VsExt.StandardError := "";
       VsExt.ExitCode := 3 |}
|}.

End Samples.

(* ================================================================== *)
(** * Properties of the VS Code extension *)
(* ================================================================== *)

Section VSCodeFacts.
Context `{VSCodeExt.Host}.
Import VSCodeExt.

Lemma exe_name_truthy : truthy (Some exe_name) = true.
Proof. unfold exe_name. destruct (platform =? "win32")%string; reflexivity. Qed.

Lemma or_null_some p s : or_null p = Some s -> p = Some s /\ truthy (Some s) = true.
Proof.
  unfold or_null. destruct (truthy p) eqn:E; [|discriminate].
  intros ->. split; [reflexivity | exact E].
Qed.

Lemma or_null_idem p : or_null (or_null p) = or_null p.
Proof. unfold or_null. destruct (truthy p) eqn:E; [rewrite E|]; reflexivity. Qed.

Lemma pathExists_truthy s :
  truthy (Some s) = true -> pathExists (Some s) = existsSync s.
Proof. unfold pathExists. intros ->. reflexivity. Qed.

Lemma found_is_checked p :
  (if pathExists (Some p) then Some p else None) = checked (Some p).
Proof.
  unfold checked, or_null, pathExists.
  destruct (truthy (Some p)); [|reflexivity]. reflexivity.
Qed.

Lemma or_null_checked c : or_null (checked c) = checked c.
Proof.
  unfold checked. destruct (or_null c) as [s|] eqn:E; [|reflexivity].
  apply or_null_some in E as [_ T].
  destruct (existsSync s); [|reflexivity].
  unfold or_null. rewrite T. reflexivity.
Qed.

(** The array is the ordered candidates, each filtered as above, with the
    bare executable name at the end. *)
Lemma candidates_in_order context :
  candidates context =
  (flat_map array_entry (ordered_candidates context) ++ [exe_name])%list.
Proof.
  unfold candidates, ordered_candidates, whichOnPath, array_entry,
    tryDebugBinFromRepo, tryDebugBinFromWorkspace, tryPackagedBin.
  cbn [flat_map fst snd app].
  rewrite !or_null_idem, !found_is_checked.
  replace (if truthy workspaceFolder
           then match workspaceFolder with
                | Some wf =>
                    if pathExists (Some (path_join [wf; "target"; "debug"; exe_name]))
                    then Some (path_join [wf; "target"; "debug"; exe_name])
                    else None
                | None => None
                end
           else None)
    with (checked (if truthy workspaceFolder
                   then option_map
                          (fun wf => path_join [wf; "target"; "debug"; exe_name])
                          workspaceFolder
                   else None)).
  2:{ destruct (truthy workspaceFolder); [|reflexivity].
      destruct workspaceFolder; [|reflexivity].
      cbn [option_map]. symmetry. apply found_is_checked. }
  rewrite !or_null_checked.
  replace (or_null (Some exe_name)) with (Some exe_name)
    by (unfold or_null; rewrite exe_name_truthy; reflexivity).
  rewrite <- !app_assoc. reflexivity.
Qed.

(** The loop over the filtered array is the ordered search. *)
Lemma pick_loop_in_order stages rest :
  pick_loop (flat_map array_entry stages ++ rest)%list =
  match first_such (fun from_user s => (from_user && is_bare s) || existsSync s) stages with
  | Some s => Some s
  | None => pick_loop rest
  end.
Proof.
  induction stages as [|[from_user c] stages IH]; [reflexivity|].
  cbn [flat_map first_such]. unfold array_entry at 1. cbn [fst snd].
  destruct from_user.
  - destruct (or_null c) as [s|] eqn:E; [|exact IH].
    apply or_null_some in E as [_ T].
    cbn [app pick_loop andb]. unfold is_bare.
    destruct (path_basename s =? s)%string; [reflexivity|].
    rewrite (pathExists_truthy _ T). cbn [orb].
    destruct (existsSync s); [reflexivity | exact IH].
  - unfold checked. destruct (or_null c) as [s|] eqn:E; [|exact IH].
    apply or_null_some in E as [_ T]. cbn [andb orb].
    destruct (existsSync s) eqn:X; [|exact IH].
    cbn [app pick_loop]. rewrite (pathExists_truthy _ T), X.
    destruct (path_basename s =? s)%string; reflexivity.
Qed.

(** The bare executable name, last in the array, always ends the loop. *)
Lemma pick_loop_last_resort :
  match pick_loop [exe_name] with Some c => c | None => exe_name end = exe_name.
Proof.
  cbn [pick_loop].
  destruct (path_basename exe_name =? exe_name)%string; [reflexivity|].
  destruct (pathExists (Some exe_name)); reflexivity.
Qed.

End VSCodeFacts.

(** C2 (as amended).  [pickBinary] tries the candidates in the stated
    order (setting, environment variable, build next to the extension,
    build in the workspace, bundled binary) and returns the first one that
    exists on the filesystem or, for the two candidates the user supplies,
    is a bare command name, which is returned without an existence check;
    when none qualifies it returns the bare executable name. *)
Theorem pickBinary_first_bare_or_existing :
  forall (H : VSCodeExt.Host) (context : VSCodeExt.ExtensionContext),
    VSCodeExt.pickBinary context = first_bare_or_existing context.
Proof.
  intros H context.
  unfold VSCodeExt.pickBinary, first_bare_or_existing.
  rewrite candidates_in_order, pick_loop_in_order.
  destruct (first_such _ (ordered_candidates context)); [reflexivity|].
  apply pick_loop_last_resort.
Qed.

(** C2, the claim as worded fails: with a bare, non-existent command name
    in [tgc.coreBinPath] and an existing binary named by [TGC_CORE_BIN],
    [pickBinary] returns the bare name, not the first existing candidate. *)
Lemma pickBinary_not_first_existing :
  @VSCodeExt.existsSync Samples.bare_name_host
     (@VSCodeExt.pickBinary Samples.bare_name_host Samples.sample_context) = false
  /\ @first_existing Samples.bare_name_host Samples.sample_context
     = "/opt/tgc/the-great-combinator"
  /\ @VSCodeExt.pickBinary Samples.bare_name_host Samples.sample_context
     <> @first_existing Samples.bare_name_host Samples.sample_context.
Proof.
  split; [reflexivity|]. split; [reflexivity|].
  vm_compute. discriminate.
Qed.

(** C3.  In clipboard mode the ['close'] handler writes exactly the
    trimmed primary output to the clipboard when the engine exits with
    status zero; on any other exit it shows an error message and writes
    nothing to the clipboard.  Neither starting the engine nor failing to
    start it writes to the clipboard: the handler's write is the only
    one. *)
Theorem clipboard_written_only_on_success :
  forall (H : VSCodeExt.Host) (context : VSCodeExt.ExtensionContext)
         (uri : option VSCodeExt.Uri) (uris : option (list VSCodeExt.Uri))
         (out err : string) (copy_ok : bool) (code : option Z),
    let picks := VSCodeExt.picks_of uri uris in
    let handled := VSCodeExt.on_close VSCodeExt.clipboard picks out err copy_ok code in
    VSCodeExt.clipboard_writes (VSCodeExt.run VSCodeExt.clipboard context uri uris) = []
    /\ (forall message, VSCodeExt.clipboard_writes (VSCodeExt.on_error message) = [])
    /\ (code = Some 0%Z ->
        VSCodeExt.clipboard_writes handled = [VSCodeExt.str_trim out]
        /\ VSCodeExt.error_messages handled = [])
    /\ (code <> Some 0%Z ->
        VSCodeExt.clipboard_writes handled = []
        /\ exists msg, VSCodeExt.error_messages handled = [msg]).
Proof.
  intros H context uri uris out err copy_ok code picks handled.
  split; [|split; [|split]].
  - unfold VSCodeExt.run. fold picks. destruct picks; reflexivity.
  - reflexivity.
  - intros ->. split; reflexivity.
  - intros Hcode. subst handled. unfold VSCodeExt.on_close.
    destruct code as [[|p|p]|]; try (split; [reflexivity | eexists; reflexivity]).
    contradiction Hcode; reflexivity.
Qed.

Lemma clipboard_written_only_on_success_witness :
  let picks := [ {| VSCodeExt.fsPath := "/work/project/a.txt" |} ] in
  let out := "File 1: a.txt" ++ newline ++ "hello" ++ newline in
  (VSCodeExt.clipboard_writes
     (@VSCodeExt.on_close Samples.plain_host VSCodeExt.clipboard picks out "" true
        (Some 0%Z))
   = ["File 1: a.txt" ++ newline ++ "hello"]
   /\ VSCodeExt.error_messages
        (@VSCodeExt.on_close Samples.plain_host VSCodeExt.clipboard picks out "" true
           (Some 0%Z)) = [])
  /\ Some 2%Z <> Some 0%Z
  /\ (VSCodeExt.clipboard_writes
        (@VSCodeExt.on_close Samples.plain_host VSCodeExt.clipboard picks "" "boom" true
           (Some 2%Z)) = []
      /\ exists msg,
           VSCodeExt.error_messages
             (@VSCodeExt.on_close Samples.plain_host VSCodeExt.clipboard picks "" "boom"
                true (Some 2%Z)) = [msg]).
Proof.
  intros picks out.
  assert (N : Some 2%Z <> Some 0%Z) by discriminate.
  split; [|split; [exact N|]].
  - exact (proj1 (proj2 (proj2 (clipboard_written_only_on_success
             Samples.plain_host Samples.sample_context
             (Some {| VSCodeExt.fsPath := "/work/project/a.txt" |}) None
             out "" true (Some 0%Z)))) eq_refl).
  - exact (proj2 (proj2 (proj2 (clipboard_written_only_on_success
             Samples.plain_host Samples.sample_context
             (Some {| VSCodeExt.fsPath := "/work/project/a.txt" |}) None
             "" "boom" true (Some 2%Z)))) N).
Defined.

(** C9.  With an empty selection (no uri, and no or an empty uris array)
    [run] shows the warning and returns without starting the engine; and
    whenever [run] does start the engine, the request it sends lists at
    least one path. *)
Theorem empty_selection_never_spawns :
  forall (H : VSCodeExt.Host) (mode : VSCodeExt.Mode)
         (context : VSCodeExt.ExtensionContext)
         (uri : option VSCodeExt.Uri) (uris : option (list VSCodeExt.Uri)),
    (uri = None -> uris = None \/ uris = Some [] ->
     VSCodeExt.run mode context uri uris =
       [VSCodeExt.ShowWarningMessage
          "No files selected! Right-click on files/folders in Explorer first."]
     /\ existsb VSCodeExt.is_spawn (VSCodeExt.run mode context uri uris) = false)
    /\ (forall file args stdin,
          In (VSCodeExt.Spawn file args stdin) (VSCodeExt.run mode context uri uris) ->
          exists p ps, member "paths" stdin = Some (JArray (JString p :: ps))).
Proof.
  intros H mode context uri uris. split.
  - intros -> [-> | ->]; split; reflexivity.
  - intros file args stdin Hin. unfold VSCodeExt.run in Hin.
    destruct (VSCodeExt.picks_of uri uris) as [|u us] eqn:E.
    + destruct Hin as [Hin | []]. discriminate Hin.
    + destruct Hin as [Hin | []]. injection Hin as _ _ <-.
      exists (VSCodeExt.fsPath u), (map (fun v => JString (VSCodeExt.fsPath v)) us).
      reflexivity.
Qed.

Lemma empty_selection_never_spawns_witness :
  @VSCodeExt.run Samples.plain_host VSCodeExt.temp Samples.sample_context None (Some [])
  = [VSCodeExt.ShowWarningMessage
       "No files selected! Right-click on files/folders in Explorer first."]
  /\ exists p ps,
       member "paths"
         (@VSCodeExt.request_payload Samples.plain_host
            [ {| VSCodeExt.fsPath := "/work/project/a.txt" |} ])
       = Some (JArray (JString p :: ps)).
Proof.
  split.
  - exact (proj1 (proj1 (empty_selection_never_spawns Samples.plain_host
             VSCodeExt.temp Samples.sample_context None (Some []))
             eq_refl (or_intror eq_refl))).
  - exact (proj2 (empty_selection_never_spawns Samples.plain_host
             VSCodeExt.temp Samples.sample_context
             (Some {| VSCodeExt.fsPath := "/work/project/a.txt" |}) None)
             _ _ _ (or_introl eq_refl)).
Defined.

(* ================================================================== *)
(** * Properties of the Visual Studio command *)
(* ================================================================== *)

Section VsFacts.
Context `{VsExt.Host}.
Import VsExt.

Lemma collect_paths_expands selection :
  forall acc paths,
    collect_paths selection acc = Some paths ->
    exists per_item,
      Forall2 (fun item files => expand_item item = Some files) selection per_item
      /\ paths = (acc ++ List.concat per_item)%list.
Proof.
  induction selection as [|item rest IH]; intros acc paths Hc.
  - injection Hc as <-. exists []. split; [constructor|].
    cbn. rewrite app_nil_r. reflexivity.
  - cbn [collect_paths] in Hc. unfold expand_item.
    destruct (Type_ item) eqn:T.
    + apply IH in Hc as (per & F & ->).
      exists ([FullPath item] :: per). split.
      * constructor; [rewrite T; reflexivity | exact F].
      * cbn. rewrite <- app_assoc. reflexivity.
    + destruct (EnumerateFiles (FullPath item) "*" AllDirectories) as [files|] eqn:E;
        [|discriminate].
      apply IH in Hc as (per & F & ->).
      exists (files :: per). split.
      * constructor; [rewrite T; exact E | exact F].
      * cbn. rewrite <- app_assoc. reflexivity.
    + apply IH in Hc as (per & F & ->).
      exists ([] :: per). split.
      * constructor; [rewrite T; reflexivity | exact F].
      * reflexivity.
Qed.

Lemma cli_starts_of_ExecuteAsync selection trace :
  ExecuteAsync selection = Some trace ->
  forall i j, In (i, j) (cli_starts trace) ->
  exists paths, collect_paths selection [] = Some paths
                /\ paths <> [] /\ i = psi /\ j = payload_of paths.
Proof.
  unfold ExecuteAsync. intros E i j Hin.
  destruct (collect_paths selection []) as [[|p ps]|] eqn:C; [| |discriminate].
  - injection E as <-. destruct Hin.
  - injection E as <-. exists (p :: ps).
    cbn [cli_starts flat_map app] in Hin.
    destruct (negb (ExitCode (run_process psi (payload_of (p :: ps))) =? 0)%Z);
      cbn in Hin; destruct Hin as [Hin | []]; injection Hin as <- <-;
      (split; [reflexivity | split; [discriminate | split; reflexivity]]).
Qed.

End VsFacts.

(** C10.  Every engine invocation of [TgcTempCommand] runs the fixed
    executable with the fixed command line (temp mode, header format
    [file ${index}: ${relpath}], separator backslash-n backslash-n,
    max-kb 1024, skip-binary true), whatever the selection; its request
    lists the selected files and, in place of each selected folder, all
    files beneath it (full depth), and carries [workspace_root] as the
    empty string. *)
Theorem TgcTempCommand_fixed_invocation :
  forall (H : VsExt.Host) (selection : list VsExt.SolutionItem)
         (trace : list VsExt.Action) (i : VsExt.ProcessStartInfo) (request : Json),
    VsExt.ExecuteAsync selection = Some trace ->
    In (i, request) (VsExt.cli_starts trace) ->
    VsExt.split_command_line (VsExt.Arguments i) =
      [ "--mode"; "temp";
        "--header-format"; "file ${index}: ${relpath}";
        "--separator"; "\n\n";
        "--max-kb"; "1024";
        "--skip-binary"; "true" ]
    /\ member "workspace_root" request = Some (JString "")
    /\ exists per_item,
         Forall2 (fun item files => VsExt.expand_item item = Some files) selection per_item
         /\ member "paths" request = Some (JArray (map JString (List.concat per_item)))
         /\ List.concat per_item <> [].
Proof.
  intros H selection trace i request E Hin.
  destruct (cli_starts_of_ExecuteAsync _ _ E _ _ Hin) as (paths & C & Hne & -> & ->).
  split; [reflexivity|]. split; [reflexivity|].
  apply collect_paths_expands in C as (per & F & ->).
  exists per. split; [exact F|]. split; [reflexivity | exact Hne].
Qed.

Lemma TgcTempCommand_fixed_invocation_witness :
  let request :=
    @VsExt.payload_of
      ["C:\proj\README.md"; "C:\proj\src\a.cs"; "C:\proj\src\sub\b.cs"] in
  let trace :=
    [ VsExt.StartCli VsExt.psi request;
      VsExt.StatusBarShowMessage
        "The Great Combinator: Created temp file: C:\Temp\tgc123.txt";
      VsExt.ProcessStart "explorer.exe" "/select,C:\Temp\tgc123.txt" ] in
  @VsExt.ExecuteAsync Samples.vs_host Samples.vs_selection = Some trace
  /\ In (VsExt.psi, request) (VsExt.cli_starts trace)
  /\ member "workspace_root" request = Some (JString "")
  /\ exists per_item,
       Forall2 (fun item files => @VsExt.expand_item Samples.vs_host item = Some files)
               Samples.vs_selection per_item
       /\ member "paths" request = Some (JArray (map JString (List.concat per_item)))
       /\ List.concat per_item <> [].
Proof.
  intros request trace.
  assert (E : @VsExt.ExecuteAsync Samples.vs_host Samples.vs_selection = Some trace)
    by reflexivity.
  assert (I : In (VsExt.psi, request) (VsExt.cli_starts trace))
    by (left; reflexivity).
  split; [exact E|]. split; [exact I|].
  exact (proj2 (TgcTempCommand_fixed_invocation Samples.vs_host Samples.vs_selection
                  trace VsExt.psi request E I)).
Defined.

(* ================================================================== *)
(** * The configuration each caller passes *)
(* ================================================================== *)

Section CallerFacts.
Context `{VSCodeExt.Host}.

Lemma launched_command_line c argv : launched c argv -> argv = command_line c.
Proof.
  destruct c as [m|]; cbn [launched command_line].
  - intros (context & uri & uris & file & stdin & Hin).
    unfold VSCodeExt.run in Hin.
    destruct (VSCodeExt.picks_of uri uris); destruct Hin as [Hin | []].
    + discriminate Hin.
    + injection Hin as _ <- _. reflexivity.
  - intros (vs & selection & trace & i & request & E & Hin & ->).
    destruct (@cli_starts_of_ExecuteAsync vs _ _ E _ _ Hin) as (_ & _ & _ & -> & _).
    reflexivity.
Qed.

End CallerFacts.

Lemma vs_command_line :
  VsExt.split_command_line (VsExt.Arguments VsExt.psi) =
  [ "--mode"; "temp";
    "--header-format"; "file ${index}: ${relpath}";
    "--separator"; "\n\n";
    "--max-kb"; "1024";
    "--skip-binary"; "true" ].
Proof. vm_compute. reflexivity. Qed.

(** C1 (as amended).  Every engine invocation a caller launches carries
    mode, header-format, separator and max-kb on its command line: from
    the VS Code [run] command with the mode of the command invoked and the
    user's [tgc.headerFormat], [tgc.separator] and [tgc.maxFileSizeKB];
    from the Visual Studio [TgcTempCommand] with fixed values, together
    with a [--skip-binary] flag whose value is the constant [true] and is
    not read from any setting. *)
Theorem callers_pass_configuration :
  forall (H : VSCodeExt.Host) (c : Caller) (argv : list string),
    launched c argv ->
    match c with
    | VSCodeRun m =>
        includes_flag argv "--mode" (VSCodeExt.mode_name m)
        /\ includes_flag argv "--header-format"
             (VSCodeExt.headerFormat VSCodeExt.configuration)
        /\ includes_flag argv "--separator"
             (VSCodeExt.separator VSCodeExt.configuration)
        /\ includes_flag argv "--max-kb"
             (string_of_Z (VSCodeExt.maxFileSizeKB VSCodeExt.configuration))
    | VisualStudioTemp =>
        includes_flag argv "--mode" "temp"
        /\ includes_flag argv "--header-format" "file ${index}: ${relpath}"
        /\ includes_flag argv "--separator" "\n\n"
        /\ includes_flag argv "--max-kb" "1024"
        /\ includes_flag argv "--skip-binary" "true"
    end.
Proof.
  intros H c argv L. apply launched_command_line in L. subst argv.
  destruct c as [m|]; unfold includes_flag, command_line.
  - unfold VSCodeExt.run_args. cbn [flag_pairs].
    repeat split.
    + left; reflexivity.
    + right; left; reflexivity.
    + right; right; left; reflexivity.
    + right; right; right; left; reflexivity.
  - rewrite vs_command_line. cbn [flag_pairs].
    repeat split.
    + left; reflexivity.
    + right; left; reflexivity.
    + right; right; left; reflexivity.
    + right; right; right; left; reflexivity.
    + right; right; right; right; left; reflexivity.
Qed.

Lemma callers_pass_configuration_witness :
  @launched Samples.skip_off_host (VSCodeRun VSCodeExt.clipboard)
     ["--mode"; "clipboard"; "--header-format"; "File ${index}: ${relpath}";
      "--separator"; "\n\n"; "--max-kb"; "1024"]
  /\ includes_flag
       ["--mode"; "clipboard"; "--header-format"; "File ${index}: ${relpath}";
        "--separator"; "\n\n"; "--max-kb"; "1024"]
       "--max-kb" "1024".
Proof.
  assert (L : @launched Samples.skip_off_host (VSCodeRun VSCodeExt.clipboard)
     ["--mode"; "clipboard"; "--header-format"; "File ${index}: ${relpath}";
      "--separator"; "\n\n"; "--max-kb"; "1024"]).
  { exists Samples.sample_context,
           (Some {| VSCodeExt.fsPath := "/work/project/a.txt" |}), None.
    eexists. eexists. left. reflexivity. }
  split; [exact L|].
  exact (proj2 (proj2 (proj2 (callers_pass_configuration Samples.skip_off_host
                                (VSCodeRun VSCodeExt.clipboard) _ L)))).
Defined.

(** Refutes membership in an evaluated list, element by element. *)
Ltac none_listed :=
  let D := fresh "D" in
  intros D; repeat (destruct D as [D | D]; [discriminate D|]); exact D.

(** C1, the claim as worded fails: for a user whose [tgc.skipBinary] is
    [false], the invocation launched by [TgcTempCommand] carries
    [--skip-binary true], and the one launched by the VS Code [run]
    command carries no [--skip-binary] flag at all. *)
Lemma skip_binary_setting_not_passed :
  (exists argv,
      @launched Samples.skip_off_host VisualStudioTemp argv
      /\ ~ @passes_skip_binary_setting Samples.skip_off_host argv)
  /\ (exists argv,
        @launched Samples.skip_off_host (VSCodeRun VSCodeExt.clipboard) argv
        /\ ~ @passes_skip_binary_setting Samples.skip_off_host argv
        /\ ~ has_flag argv "--skip-binary").
Proof.
  split.
  - exists (VsExt.split_command_line VsExt.cli_arguments). split.
    + exists Samples.vs_host, Samples.vs_selection. eexists. exists VsExt.psi. eexists.
      split; [reflexivity|]. split; [left; reflexivity | reflexivity].
    + unfold passes_skip_binary_setting, includes_flag. vm_compute.
      none_listed.
  - exists (@VSCodeExt.run_args Samples.skip_off_host VSCodeExt.clipboard). split.
    + exists Samples.sample_context,
             (Some {| VSCodeExt.fsPath := "/work/project/a.txt" |}), None.
      eexists. eexists. left. reflexivity.
    + split.
      * unfold passes_skip_binary_setting, includes_flag. vm_compute.
        none_listed.
      * unfold has_flag. vm_compute.
        none_listed.
Qed.

(* ================================================================== *)
(** * Properties of the engine's formatter and loader *)
(* ================================================================== *)



Section FormatterFacts.
Import Engine.




Lemma blocks_from_skips template pre f post :
  status f <> Included ->
  forall next,
    blocks_from template next (pre ++ f :: post) =
    blocks_from template next (pre ++ post).
Proof.
  intros Hs. induction pre as [|g pre IH]; intros next.
  - cbn [app blocks_from]. destruct (status f); [contradiction Hs|..]; reflexivity.
  - cbn [app blocks_from].
    destruct (status g), (content g); rewrite ?IH; reflexivity.
Qed.



End FormatterFacts.

Section LoaderFacts.
Context `{Engine.TextCodec}.
Import Engine.



End LoaderFacts.

Section FormatterReference.
Import Engine.












End FormatterReference.



Section SizePolicy.
Context `{Engine.TextCodec}.
Import Engine.

Lemma probe_of_small (bytes : list byte) n :
  List.length bytes <= n + 1 -> firstn (n + 1) bytes = bytes.
Proof. intros L. apply firstn_all2. exact L. Qed.

Lemma classify_at_ceiling cfg bytes :
  List.length bytes = max_kb cfg * 1024 ->
  classify cfg (Some bytes) =
  if skip_binary cfg && looks_binary (firstn sample_len bytes)
  then (SkippedBinary, None)
  else (Included, Some (decode_lossy bytes)).
Proof.
  intros L. unfold classify, max_size_bytes.
  rewrite probe_of_small by lia.
  rewrite L, Nat.ltb_irrefl. reflexivity.
Qed.

Lemma classify_above_ceiling cfg bytes :
  List.length bytes = max_kb cfg * 1024 + 1 ->
  classify cfg (Some bytes) = (SkippedTooLarge, None).
Proof.
  intros L. unfold classify, max_size_bytes.
  rewrite probe_of_small by lia.
  rewrite L.
  replace (max_kb cfg * 1024 <? max_kb cfg * 1024 + 1)%nat with true; [reflexivity|].
  symmetry. apply Nat.ltb_lt. lia.
Qed.

End SizePolicy.

(** C5.  The size policy is a strict byte-count threshold.  A readable
    file of exactly max-kb x 1024 bytes is never SkippedTooLarge, and it
    is Included, with all its bytes decoded, unless the skip-binary
    policy is on and finds its sample binary; a readable file of
    max-kb x 1024 + 1 bytes is SkippedTooLarge whatever its content and
    the binary policy, and the joined text is the same as if the file
    were not in the sequence. *)
Theorem size_ceiling_is_strict :
  forall (codec : Engine.TextCodec) (cfg : Engine.Config)
         (root : option Engine.Path) (ancestor : Engine.Path)
         (e : Engine.Entry) (bytes : list byte),
    Engine.entry_data e = Some bytes ->
    let f := Engine.load cfg root ancestor e in
    (List.length bytes = Engine.max_kb cfg * 1024 ->
     Engine.status f <> Engine.SkippedTooLarge
     /\ (Engine.skip_binary cfg = false
         \/ Engine.looks_binary (firstn Engine.sample_len bytes) = false ->
         Engine.status f = Engine.Included
         /\ Engine.content f = Some (Engine.decode_lossy bytes)))
    /\ (List.length bytes = Engine.max_kb cfg * 1024 + 1 ->
        Engine.status f = Engine.SkippedTooLarge
        /\ Engine.content f = None
        /\ forall pre post,
             Engine.combined cfg (pre ++ f :: post) = Engine.combined cfg (pre ++ post)).
Proof.
  intros codec cfg root ancestor e bytes Hd f. split; intros L.
  - subst f. unfold Engine.load. cbn [Engine.status Engine.content].
    rewrite Hd, (classify_at_ceiling cfg bytes L). split.
    + destruct (_ && _); discriminate.
    + intros [Hoff | Htext].
      * rewrite Hoff. cbn [andb fst snd]. split; reflexivity.
      * rewrite Htext, andb_false_r. cbn [fst snd]. split; reflexivity.
  - assert (Hs : Engine.status f = Engine.SkippedTooLarge).
    { subst f. unfold Engine.load. cbn [Engine.status].
      rewrite Hd, (classify_above_ceiling cfg bytes L). reflexivity. }
    split; [exact Hs|]. split.
    + subst f. unfold Engine.load. cbn [Engine.content].
      rewrite Hd, (classify_above_ceiling cfg bytes L). reflexivity.
    + intros pre post. unfold Engine.combined, Engine.blocks.
      rewrite blocks_from_skips; [reflexivity|].
      rewrite Hs. discriminate.
Qed.

Lemma size_ceiling_is_strict_witness :
  let at_ceiling :=
    {| Engine.entry_path := ["ws"; "exact.txt"]; Engine.entry_found := true;
       Engine.entry_data := Some (Samples.bytes_of_size 1024) |} in
  let one_more :=
    {| Engine.entry_path := ["ws"; "over.txt"]; Engine.entry_found := true;
       Engine.entry_data := Some (Samples.bytes_of_size 1025) |} in
  (List.length (Samples.bytes_of_size 1024) = Engine.max_kb Samples.sample_config * 1024
   /\ Engine.status (@Engine.load Samples.ascii_codec Samples.sample_config
                       (Some ["ws"]) [] at_ceiling) = Engine.Included)
  /\ (List.length (Samples.bytes_of_size 1025)
        = Engine.max_kb Samples.sample_config * 1024 + 1
      /\ Engine.status (@Engine.load Samples.ascii_codec Samples.sample_config
                          (Some ["ws"]) [] one_more) = Engine.SkippedTooLarge).
Proof.
  intros at_ceiling one_more.
  assert (L0 : List.length (Samples.bytes_of_size 1024)
               = Engine.max_kb Samples.sample_config * 1024) by (vm_compute; reflexivity).
  assert (L1 : List.length (Samples.bytes_of_size 1025)
               = Engine.max_kb Samples.sample_config * 1024 + 1)
    by (vm_compute; reflexivity).
  assert (T : Engine.skip_binary Samples.sample_config = false
              \/ @Engine.looks_binary Samples.ascii_codec
                   (firstn (@Engine.sample_len Samples.ascii_codec)
                           (Samples.bytes_of_size 1024)) = false)
    by (right; vm_compute; reflexivity).
  split; (split; [assumption|]).
  - exact (proj1 (proj2 (proj1 (size_ceiling_is_strict Samples.ascii_codec
             Samples.sample_config (Some ["ws"]) [] at_ceiling
             (Samples.bytes_of_size 1024) eq_refl) L0) T)).
  - exact (proj1 (proj2 (size_ceiling_is_strict Samples.ascii_codec
             Samples.sample_config (Some ["ws"]) [] one_more
             (Samples.bytes_of_size 1025) eq_refl) L1)).
Defined.

(* ================================================================== *)
(** * Properties of the engine's path resolver *)
(* ================================================================== *)

Section DedupFacts.
Import Engine.








End DedupFacts.



(* ================================================================== *)
(** * Reproducibility of the engine *)
(* ================================================================== *)

(** ** Lexical order on names *)

Lemma string_leb_trans (a : string) :
  forall b c, (a <=? b)%string = true -> (b <=? c)%string = true ->
              (a <=? c)%string = true.
Proof.
  unfold String.leb.
  induction a as [|x a IH]; intros [|y b] [|z c]; cbn; try reflexivity;
    try discriminate.
  unfold Ascii.compare.
  destruct (N.compare_spec (N_of_ascii x) (N_of_ascii y)) as [Exy | Lxy | Gxy];
    destruct (N.compare_spec (N_of_ascii y) (N_of_ascii z)) as [Eyz | Lyz | Gyz];
    destruct (N.compare_spec (N_of_ascii x) (N_of_ascii z)) as [Exz | Lxz | Gxz];
    try discriminate; try reflexivity; try lia.
  apply IH.
Qed.

Section SortFacts.
Context {A : Type}.
Import Engine.

Lemma insert_by_name_perm (e : string * A) l :
  Permutation (insert_by_name e l) (e :: l).
Proof.
  induction l as [|x l IH]; cbn [insert_by_name]; [reflexivity|].
  destruct (fst e <=? fst x)%string; [reflexivity|].
  rewrite IH. apply perm_swap.
Qed.

Lemma sort_by_name_perm (l : list (string * A)) : Permutation (sort_by_name l) l.
Proof.
  induction l as [|e l IH]; [reflexivity|].
  unfold sort_by_name in *. cbn [fold_right].
  rewrite insert_by_name_perm, IH. reflexivity.
Qed.

Lemma insert_by_name_sorted (e : string * A) l :
  StronglySorted name_le l -> StronglySorted name_le (insert_by_name e l).
Proof.
  induction 1 as [|x l Hs IH Hx]; cbn [insert_by_name].
  - constructor; constructor.
  - destruct (fst e <=? fst x)%string eqn:Le.
    + constructor; [constructor; assumption|].
      constructor; [exact Le|].
      eapply Forall_impl; [|exact Hx].
      intros y Hy. eapply string_leb_trans; [exact Le | exact Hy].
    + constructor; [exact IH|].
      apply (Permutation_Forall (Permutation_sym (insert_by_name_perm e l))).
      constructor; [|exact Hx].
      destruct (String.leb_total (fst x) (fst e)) as [T | T]; [exact T|].
      unfold name_le. rewrite T in Le. discriminate Le.
Qed.

Lemma sort_by_name_sorted (l : list (string * A)) :
  StronglySorted name_le (sort_by_name l).
Proof.
  induction l as [|e l IH]; [constructor|].
  unfold sort_by_name in *. cbn [fold_right].
  apply insert_by_name_sorted. exact IH.
Qed.

Lemma same_name_same_entry (l : list (string * A)) a b :
  NoDup (map fst l) -> In a l -> In b l -> fst a = fst b -> a = b.
Proof.
  induction l as [|x l IH]; intros Hn Ha Hb E; [destruct Ha|].
  cbn [map] in Hn. apply NoDup_cons_iff in Hn as [Hx Hn].
  destruct Ha as [-> | Ha], Hb as [-> | Hb].
  - reflexivity.
  - contradiction Hx. rewrite E. apply in_map. exact Hb.
  - contradiction Hx. rewrite <- E. apply in_map. exact Ha.
  - apply IH; assumption.
Qed.

(** A directory without repeated names has one lexical listing. *)
Lemma sorted_listing_unique (l1 : list (string * A)) :
  forall l2,
    StronglySorted name_le l1 -> StronglySorted name_le l2 ->
    Permutation l1 l2 -> NoDup (map fst l1) -> l1 = l2.
Proof.
  induction l1 as [|a l1 IH]; intros l2 S1 S2 P Hn.
  - apply Permutation_nil in P. subst l2. reflexivity.
  - destruct l2 as [|b l2];
      [apply Permutation_sym, Permutation_nil in P; discriminate P|].
    apply StronglySorted_inv in S1 as [S1 F1].
    apply StronglySorted_inv in S2 as [S2 F2].
    assert (E : a = b).
    { assert (Ha : In a (b :: l2))
        by (eapply Permutation_in; [exact P | left; reflexivity]).
      assert (Hb : In b (a :: l1))
        by (eapply Permutation_in; [apply Permutation_sym; exact P | left; reflexivity]).
      destruct Ha as [<- | Ha]; [reflexivity|].
      destruct Hb as [<- | Hb]; [reflexivity|].
      rewrite Forall_forall in F1, F2.
      apply (same_name_same_entry (a :: l1) a b Hn);
        [left; reflexivity | right; exact Hb |].
      apply String.leb_antisym; [apply F1; exact Hb | apply F2; exact Ha]. }
    subst b. f_equal.
    apply IH; [exact S1 | exact S2 | eapply Permutation_cons_inv; exact P |].
    cbn [map] in Hn. apply NoDup_cons_iff in Hn as [_ Hn]. exact Hn.
Qed.

Lemma sort_by_name_order_independent (l1 l2 : list (string * A)) :
  Permutation l1 l2 -> NoDup (map fst l1) -> sort_by_name l1 = sort_by_name l2.
Proof.
  intros P Hn. apply sorted_listing_unique.
  - apply sort_by_name_sorted.
  - apply sort_by_name_sorted.
  - rewrite !sort_by_name_perm. exact P.
  - eapply Permutation_NoDup; [|exact Hn].
    apply Permutation_map, Permutation_sym, sort_by_name_perm.
Qed.

End SortFacts.

(** ** The traversal does not depend on the listing order *)

Section TraversalFacts.
Import Engine.

Lemma Node_induction (P : Node -> Prop) :
  (forall d, P (File d)) ->
  (forall es, Forall (fun e => P (snd e)) es -> P (Dir es)) ->
  forall n, P n.
Proof.
  intros Hfile Hdir. fix IH 1. intros [d | es].
  - apply Hfile.
  - apply Hdir.
    refine ((fix each (l : list (string * Node)) : Forall (fun e => P (snd e)) l :=
               match l with
               | [] => Forall_nil _
               | e :: rest => Forall_cons e _ (each rest)
               end) es).
    destruct e as [name c]. exact (IH c).
Qed.

Lemma distinct_names_NoDup names : distinct_names names = true -> NoDup names.
Proof.
  induction names as [|a rest IH]; intros D; [constructor|].
  cbn [distinct_names] in D. apply andb_prop in D as [Da Dr].
  constructor; [|apply IH; exact Dr].
  intros Hin. apply negb_true_iff in Da.
  assert (X : existsb (String.eqb a) rest = true).
  { apply existsb_exists. exists a. split; [exact Hin | apply String.eqb_refl]. }
  rewrite X in Da. discriminate Da.
Qed.

Lemma well_formed_dir es :
  well_formed (Dir es) = true ->
  NoDup (map fst es) /\ forall e, In e es -> well_formed (snd e) = true.
Proof.
  cbn [well_formed]. intros W. apply andb_prop in W as [D F]. split.
  - apply distinct_names_NoDup. exact D.
  - intros [name c] Hin. rewrite forallb_forall in F. exact (F _ Hin).
Qed.

Lemma assoc_lookup_In {A : Type} name (es : list (string * A)) c :
  assoc_lookup name es = Some c -> In (name, c) es.
Proof.
  induction es as [|[k v] es IH]; cbn [assoc_lookup]; [discriminate|].
  destruct (k =? name)%string eqn:E.
  - intros X. injection X as ->. apply String.eqb_eq in E. subst k. left. reflexivity.
  - intros X. right. apply IH. exact X.
Qed.

Lemma well_formed_lookup p :
  forall fs n, well_formed fs = true -> lookup fs p = Some n -> well_formed n = true.
Proof.
  induction p as [|name rest IH]; intros fs n W L.
  - cbn in L. injection L as <-. exact W.
  - cbn [lookup] in L. destruct fs as [d | es]; [discriminate|].
    destruct (assoc_lookup name es) as [c|] eqn:E; [|discriminate].
    apply (IH c n); [|exact L].
    apply well_formed_dir in W as [_ W].
    exact (W _ (assoc_lookup_In _ _ _ E)).
Qed.

Variables o1 o2 : Oracle.
Hypothesis faithful1 : lists_faithfully o1.
Hypothesis faithful2 : lists_faithfully o2.

Lemma files_under_order_independent n :
  well_formed n = true ->
  forall here, files_under o1 here n = files_under o2 here n.
Proof.
  induction n as [d | es IH] using Node_induction; intros W here; [reflexivity|].
  apply well_formed_dir in W as [Hn Hw].
  cbn [files_under].
  set (listed1 := map _ es).
  set (listed2 := map _ es).
  assert (E : listed1 = listed2).
  { subst listed1 listed2. apply map_ext_in. intros [name c] Hin.
    rewrite Forall_forall in IH. f_equal.
    apply (IH _ Hin). exact (Hw _ Hin). }
  rewrite <- E. clear E listed2.
  assert (Hk : map fst listed1 = map fst es).
  { subst listed1. rewrite map_map. apply map_ext. intros [name c]. reflexivity. }
  f_equal. f_equal.
  apply sort_by_name_order_independent.
  - rewrite (faithful1 _ listed1). apply Permutation_sym, faithful2.
  - eapply Permutation_NoDup.
    + apply Permutation_map, Permutation_sym, faithful1.
    + rewrite Hk. exact Hn.
Qed.

Lemma traversal_order_independent fs req :
  well_formed fs = true -> traversal o1 fs req = traversal o2 fs req.
Proof.
  intros W. unfold traversal. apply flat_map_ext. intros p.
  unfold traverse_entry. destruct (lookup fs p) as [n|] eqn:L; [|reflexivity].
  apply files_under_order_independent.
  exact (well_formed_lookup _ _ _ W L).
Qed.

Lemma resolve_order_independent fs req :
  well_formed fs = true -> resolve o1 fs req = resolve o2 fs req.
Proof.
  intros W. unfold resolve. rewrite (traversal_order_independent _ _ W). reflexivity.
Qed.

Lemma resolved_order_independent `{TextCodec} cfg fs req :
  well_formed fs = true -> resolved cfg o1 fs req = resolved cfg o2 fs req.
Proof.
  intros W. unfold resolved. rewrite (resolve_order_independent _ _ W). reflexivity.
Qed.

End TraversalFacts.

(** C7.  Two runs of one request against the same filesystem give the
    same resolved-file sequence, hence the same blocks with the same
    index numbering and the same joined text, whatever order the system
    lists directories in and whatever name a temporary file gets: in
    clipboard mode the two runs end identically, and in temp mode the
    files they create have identical content. *)
Theorem rerun_is_byte_identical :
  forall (codec : Engine.TextCodec) (cfg : Engine.Config) (fs : Engine.Node)
         (req : Engine.Request) (o1 o2 : Engine.Oracle),
    Engine.well_formed fs = true ->
    Engine.lists_faithfully o1 ->
    Engine.lists_faithfully o2 ->
    Engine.resolved cfg o1 fs req = Engine.resolved cfg o2 fs req
    /\ Engine.blocks cfg (Engine.resolved cfg o1 fs req)
       = Engine.blocks cfg (Engine.resolved cfg o2 fs req)
    /\ Engine.combined cfg (Engine.resolved cfg o1 fs req)
       = Engine.combined cfg (Engine.resolved cfg o2 fs req)
    /\ (Engine.mode cfg = Engine.Clipboard ->
        Engine.run cfg o1 fs req = Engine.run cfg o2 fs req)
    /\ (forall a b,
          Engine.run cfg o1 fs req = inr a ->
          Engine.run cfg o2 fs req = inr b ->
          option_map snd (Engine.temp_file a) = option_map snd (Engine.temp_file b)).
Proof.
  intros codec cfg fs req o1 o2 W F1 F2.
  pose proof (resolved_order_independent o1 o2 F1 F2 cfg fs req W) as Ef.
  pose proof (resolve_order_independent o1 o2 F1 F2 fs req W) as Er.
  split; [exact Ef|]. split; [rewrite Ef; reflexivity|].
  split; [rewrite Ef; reflexivity|]. split.
  - intros M. unfold Engine.run. rewrite Ef, Er, M. reflexivity.
  - intros a b. unfold Engine.run. rewrite Ef, Er.
    destruct (Engine.paths req); [discriminate|].
    destruct (negb _); [discriminate|].
    destruct (Engine.mode cfg).
    + intros Ha Hb. injection Ha as <-. injection Hb as <-. reflexivity.
    + destruct (Engine.mktemp o1) as [p1|]; [|discriminate].
      destruct (Engine.lookup fs p1); [discriminate|].
      destruct (Engine.mktemp o2) as [p2|]; [|discriminate].
      destruct (Engine.lookup fs p2); [discriminate|].
      intros Ha Hb. injection Ha as <-. injection Hb as <-. reflexivity.
Qed.

Lemma rerun_is_byte_identical_witness :
  Engine.well_formed Samples.sample_fs = true
  /\ Engine.lists_faithfully Samples.first_run
  /\ Engine.lists_faithfully Samples.second_run
  /\ @Engine.resolved Samples.ascii_codec Samples.sample_config Samples.first_run
       Samples.sample_fs Samples.sample_request
     = @Engine.resolved Samples.ascii_codec Samples.sample_config Samples.second_run
         Samples.sample_fs Samples.sample_request
  /\ @Engine.run Samples.ascii_codec Samples.sample_config Samples.first_run
       Samples.sample_fs Samples.sample_request
     = @Engine.run Samples.ascii_codec Samples.sample_config Samples.second_run
         Samples.sample_fs Samples.sample_request.
Proof.
  assert (W : Engine.well_formed Samples.sample_fs = true) by reflexivity.
  assert (F1 : Engine.lists_faithfully Samples.first_run)
    by (intros A l; apply Permutation_refl).
  assert (F2 : Engine.lists_faithfully Samples.second_run)
    by (intros A l; apply Permutation_sym, Permutation_rev).
  split; [exact W|]. split; [exact F1|]. split; [exact F2|].
  pose proof (rerun_is_byte_identical Samples.ascii_codec Samples.sample_config
                Samples.sample_fs Samples.sample_request
                Samples.first_run Samples.second_run W F1 F2)
    as (Ef & _ & _ & Erun & _).
  split; [exact Ef | exact (Erun eq_refl)].
Defined.

(* ================================================================== *)
(** * The two output sinks *)
(* ================================================================== *)

Section SinkFacts.
Context `{Engine.TextCodec}.
Import Engine.





End SinkFacts.



(* ================================================================== *)
(** * The written scenarios, run on the engine model *)
(* ================================================================== *)

(** Scenario A: one file under the workspace root; the output is the
    header, a line break and the file's text, with no separator. *)
Example scenario_single_file :
  @Engine.run Samples.ascii_codec Samples.sample_config Samples.first_run
     (Engine.Dir [("ws", Engine.Dir [("README.md", Samples.text_file "hello")])])
     {| Engine.paths := [["ws"; "README.md"]]; Engine.workspace_root := Some ["ws"] |}
  = inr {| Engine.stdout := "File 1: README.md" ++ newline ++ "hello";
           Engine.temp_file := None |}.
Proof. vm_compute. reflexivity. Qed.

(** Scenario B: two files in request order, the decoded separator
    between their blocks. *)
Example scenario_two_files :
  @Engine.run Samples.ascii_codec Samples.sample_config Samples.first_run
     (Engine.Dir [("ws", Engine.Dir [("b.txt", Samples.text_file "bee");
                                     ("a.txt", Samples.text_file "ay")])])
     {| Engine.paths := [["ws"; "a.txt"]; ["ws"; "b.txt"]];
        Engine.workspace_root := Some ["ws"] |}
  = inr {| Engine.stdout :=
             "File 1: a.txt" ++ newline ++ "ay"
             ++ newline ++ "---" ++ newline
             ++ "File 2: b.txt" ++ newline ++ "bee";
           Engine.temp_file := None |}.
Proof. vm_compute. reflexivity. Qed.

(** The binary policy: a file holding a NUL byte is skipped when the
    policy is on and included when it is off. *)
Example nul_byte_policy :
  let data := Some ["a"%byte; x00; "b"%byte] in
  fst (@Engine.classify Samples.ascii_codec Samples.sample_config data)
  = Engine.SkippedBinary
  /\ fst (@Engine.classify Samples.ascii_codec
            {| Engine.mode := Engine.Clipboard;
               Engine.header_format := "File ${index}: ${relpath}";
               Engine.separator := "\n---\n";
               Engine.max_kb := 1;
               Engine.skip_binary := false;
               Engine.debug := false |} data)
     = Engine.Included.
Proof. split; vm_compute; reflexivity. Qed.

(* ================================================================== *)
(** * Further properties of the VS Code extension *)
(* ================================================================== *)

Section PickBinaryFacts.
Context `{VSCodeExt.Host}.
Import VSCodeExt.

Lemma pick_loop_picks cs c :
  pick_loop cs = Some c ->
  In c cs /\ (is_bare c = true \/ pathExists (Some c) = true).
Proof.
  induction cs as [|x cs IH]; cbn [pick_loop]; [discriminate|].
  unfold is_bare.
  destruct (path_basename x =? x)%string eqn:B.
  - intros E. injection E as <-. split; [left; reflexivity | left; exact B].
  - destruct (pathExists (Some x)) eqn:X.
    + intros E. injection E as <-. split; [left; reflexivity | right; exact X].
    + intros E. destruct (IH E) as [Hin Hok]. split; [right; exact Hin | exact Hok].
Qed.

Lemma candidates_truthy context c :
  In c (candidates context) -> truthy (Some c) = true.
Proof.
  unfold candidates. intros Hin. apply in_flat_map in Hin as (x & _ & Hin).
  destruct (or_null x) as [s|] eqn:E; [|destruct Hin].
  destruct Hin as [<- | []]. apply or_null_some in E as [_ T]. exact T.
Qed.

Lemma truthy_not_empty s : truthy (Some s) = true -> s <> "".
Proof. intros T ->. discriminate T. Qed.

Lemma first_such_head ok from_user c rest s :
  or_null c = Some s -> ok from_user s = true ->
  first_such ok ((from_user, c) :: rest) = Some s.
Proof. intros E O. cbn [first_such]. rewrite E, O. reflexivity. Qed.

Lemma first_such_skip ok from_user c rest :
  (forall s, or_null c = Some s -> ok from_user s = false) ->
  first_such ok ((from_user, c) :: rest) = first_such ok rest.
Proof.
  intros N. cbn [first_such]. destruct (or_null c) as [s|] eqn:E; [|reflexivity].
  rewrite (N s eq_refl). reflexivity.
Qed.

Lemma pickBinary_unfolded context :
  pickBinary context =
  match first_such (fun from_user s => (from_user && is_bare s) || existsSync s)
                   (ordered_candidates context) with
  | Some s => s
  | None => exe_name
  end.
Proof.
  unfold pickBinary. rewrite candidates_in_order, pick_loop_in_order.
  destruct (first_such _ (ordered_candidates context)); [reflexivity|].
  apply pick_loop_last_resort.
Qed.

End PickBinaryFacts.

(** X1.  [pickBinary] never returns the empty string, and what it returns
    is the bare executable name, a name without directory part, or a
    path that exists: never an unchecked path with a directory part. *)
Theorem pickBinary_result_is_usable :
  forall (H : VSCodeExt.Host) (context : VSCodeExt.ExtensionContext),
    let r := VSCodeExt.pickBinary context in
    r <> ""
    /\ (r = VSCodeExt.exe_name \/ is_bare r = true \/ VSCodeExt.existsSync r = true).
Proof.
  intros H context r. subst r. unfold VSCodeExt.pickBinary.
  destruct (VSCodeExt.pick_loop (VSCodeExt.candidates context)) as [c|] eqn:E.
  - apply pick_loop_picks in E as [Hin Hok].
    pose proof (candidates_truthy _ _ Hin) as T. split.
    + apply truthy_not_empty. exact T.
    + destruct Hok as [B | X]; [right; left; exact B|].
      right; right. rewrite (pathExists_truthy _ T) in X. exact X.
  - split; [|left; reflexivity].
    apply truthy_not_empty, exe_name_truthy.
Qed.

(** X2.  The user's choices come first: a configured [tgc.coreBinPath]
    that exists is returned whatever else exists; and when nothing is
    configured, an existing [TGC_CORE_BIN] is returned before any build
    or bundled binary. *)
Theorem pickBinary_user_choice_first :
  forall (H : VSCodeExt.Host) (context : VSCodeExt.ExtensionContext),
    (VSCodeExt.truthy (Some VSCodeExt.cfgExpanded) = true ->
     VSCodeExt.existsSync VSCodeExt.cfgExpanded = true ->
     VSCodeExt.pickBinary context = VSCodeExt.cfgExpanded)
    /\ (forall e,
          VSCodeExt.cfgExpanded = "" ->
          VSCodeExt.env_TGC_CORE_BIN = Some e ->
          e <> "" ->
          VSCodeExt.existsSync e = true ->
          VSCodeExt.pickBinary context = e).
Proof.
  intros H context. split.
  - intros T X. rewrite pickBinary_unfolded. unfold ordered_candidates.
    rewrite (first_such_head _ true (Some VSCodeExt.cfgExpanded) _ VSCodeExt.cfgExpanded).
    + reflexivity.
    + unfold VSCodeExt.or_null. rewrite T. reflexivity.
    + rewrite X. apply orb_true_r.
  - intros e C E Ne X. rewrite pickBinary_unfolded. unfold ordered_candidates.
    rewrite first_such_skip.
    + rewrite (first_such_head _ true VSCodeExt.env_TGC_CORE_BIN _ e).
      * reflexivity.
      * rewrite E. unfold VSCodeExt.or_null. cbn [VSCodeExt.truthy].
        apply String.eqb_neq in Ne. rewrite Ne. reflexivity.
      * rewrite X. apply orb_true_r.
    + intros s. rewrite C. unfold VSCodeExt.or_null. cbn. discriminate.
Qed.

Lemma pickBinary_user_choice_first_witness :
  @VSCodeExt.pickBinary Samples.configured_host Samples.sample_context
    = "/opt/custom/tgc"
  /\ @VSCodeExt.pickBinary
       (Samples.linux_host Samples.default_settings
          (Some "/opt/tgc/the-great-combinator")
          ["/opt/tgc/the-great-combinator";
           "/work/project/target/debug/the-great-combinator"])
       Samples.sample_context
     = "/opt/tgc/the-great-combinator".
Proof.
  split.
  - exact (proj1 (pickBinary_user_choice_first Samples.configured_host
                    Samples.sample_context) eq_refl eq_refl).
  - refine (proj2 (pickBinary_user_choice_first
                     (Samples.linux_host Samples.default_settings
                        (Some "/opt/tgc/the-great-combinator")
                        ["/opt/tgc/the-great-combinator";
                         "/work/project/target/debug/the-great-combinator"])
                     Samples.sample_context)
                  "/opt/tgc/the-great-combinator" eq_refl eq_refl _ eq_refl).
    discriminate.
Defined.

Section PickLoopSteps.
Context `{VSCodeExt.Host}.
Import VSCodeExt.

(** The loop passes over a candidate with a directory part that does not
    exist. *)
Lemma pick_loop_passes s rest :
  truthy (Some s) = true -> is_bare s = false -> existsSync s = false ->
  pick_loop (s :: rest) = pick_loop rest.
Proof.
  intros T B X. cbn [pick_loop]. unfold is_bare in B.
  rewrite B, (pathExists_truthy _ T), X. reflexivity.
Qed.

End PickLoopSteps.

(** X3.  When no candidate location holds a file (neither the configured
    path nor the one in the environment exists, and none of the three
    [try...] helpers finds its file) and the user has given no bare
    command name, [pickBinary] falls back to the bare executable name, to
    be found on the system search path: [the-great-combinator.exe] on
    win32 and [the-great-combinator] elsewhere. *)
Theorem pickBinary_falls_back_to_search_path :
  forall (H : VSCodeExt.Host) (context : VSCodeExt.ExtensionContext),
    (VSCodeExt.cfgExpanded <> "" ->
     is_bare VSCodeExt.cfgExpanded = false
     /\ VSCodeExt.existsSync VSCodeExt.cfgExpanded = false) ->
    (forall e, VSCodeExt.env_TGC_CORE_BIN = Some e -> e <> "" ->
               is_bare e = false /\ VSCodeExt.existsSync e = false) ->
    VSCodeExt.tryDebugBinFromRepo context VSCodeExt.exe_name = None ->
    VSCodeExt.tryDebugBinFromWorkspace VSCodeExt.exe_name = None ->
    VSCodeExt.tryPackagedBin context VSCodeExt.exe_name = None ->
    VSCodeExt.pickBinary context =
      if (VSCodeExt.platform =? "win32")%string
      then "the-great-combinator.exe" else "the-great-combinator".
Proof.
  intros H context Hcfg Henv Hrepo Hwf Hpack.
  change (VSCodeExt.pickBinary context = VSCodeExt.exe_name).
  unfold VSCodeExt.pickBinary, VSCodeExt.candidates, VSCodeExt.whichOnPath.
  rewrite Hrepo, Hwf, Hpack. cbn [flat_map].
  rewrite !or_null_idem.
  change (VSCodeExt.or_null None) with (@None string). cbn [app].
  replace (VSCodeExt.or_null (Some VSCodeExt.exe_name)) with (Some VSCodeExt.exe_name)
    by (unfold VSCodeExt.or_null; rewrite exe_name_truthy; reflexivity).
  destruct (VSCodeExt.or_null (Some VSCodeExt.cfgExpanded)) as [c|] eqn:Ec;
    destruct (VSCodeExt.or_null VSCodeExt.env_TGC_CORE_BIN) as [e|] eqn:Ee;
    cbn [app].
  - apply or_null_some in Ec as [Ec Tc]. injection Ec as <-.
    apply or_null_some in Ee as [Ee Te].
    destruct (Hcfg (truthy_not_empty _ Tc)) as [Bc Xc].
    destruct (Henv e Ee (truthy_not_empty _ Te)) as [Be Xe].
    rewrite (pick_loop_passes _ _ Tc Bc Xc), (pick_loop_passes _ _ Te Be Xe).
    apply pick_loop_last_resort.
  - apply or_null_some in Ec as [Ec Tc]. injection Ec as <-.
    destruct (Hcfg (truthy_not_empty _ Tc)) as [Bc Xc].
    rewrite (pick_loop_passes _ _ Tc Bc Xc). apply pick_loop_last_resort.
  - apply or_null_some in Ee as [Ee Te].
    destruct (Henv e Ee (truthy_not_empty _ Te)) as [Be Xe].
    rewrite (pick_loop_passes _ _ Te Be Xe). apply pick_loop_last_resort.
  - apply pick_loop_last_resort.
Qed.

Lemma pickBinary_falls_back_to_search_path_witness :
  let host :=
    Samples.linux_host Samples.configured_settings (Some "/opt/tgc/the-great-combinator")
                       ["/etc/hosts"] in
  @VSCodeExt.existsSync host "/etc/hosts" = true
  /\ @VSCodeExt.pickBinary host Samples.sample_context = "the-great-combinator".
Proof.
  intros host. split; [reflexivity|].
  refine (pickBinary_falls_back_to_search_path host Samples.sample_context
            _ _ eq_refl eq_refl eq_refl).
  - intros _. split; reflexivity.
  - intros e E _. injection E as <-. split; reflexivity.
Defined.

Section RunFacts.
Context `{VSCodeExt.Host}.
Import VSCodeExt.

Lemma run_shape mode context uri uris :
  match picks_of uri uris with
  | [] => run mode context uri uris =
          [ShowWarningMessage
             "No files selected! Right-click on files/folders in Explorer first."]
  | picks => run mode context uri uris =
             [Spawn (pickBinary context) (run_args mode) (request_payload picks)]
  end.
Proof. unfold run. destruct (picks_of uri uris); reflexivity. Qed.

End RunFacts.

(** X4.  The commands [tgc.copy] and [tgc.temp] that [activate] registers
    do the same thing up to the mode: on an empty selection both show the
    same warning and start nothing; otherwise each starts one process,
    with the same executable, the same request and the same arguments
    except that the value after [--mode] is [clipboard] for the one and
    [temp] for the other. *)
Theorem copy_and_temp_differ_only_in_mode :
  forall (H : VSCodeExt.Host) (context : VSCodeExt.ExtensionContext)
         (uri : option VSCodeExt.Uri) (uris : option (list VSCodeExt.Uri)),
  exists copied temped,
    VSCodeExt.executeCommand context "tgc.copy" uri uris = Some copied
    /\ VSCodeExt.executeCommand context "tgc.temp" uri uris = Some temped
    /\ ((copied = temped /\ existsb VSCodeExt.is_spawn copied = false
         /\ VSCodeExt.picks_of uri uris = [])
        \/ exists file rest request,
             copied = [VSCodeExt.Spawn file ("--mode" :: "clipboard" :: rest) request]
             /\ temped = [VSCodeExt.Spawn file ("--mode" :: "temp" :: rest) request]).
Proof.
  intros H context uri uris.
  exists (VSCodeExt.run VSCodeExt.clipboard context uri uris),
         (VSCodeExt.run VSCodeExt.temp context uri uris).
  split; [reflexivity|]. split; [reflexivity|].
  pose proof (run_shape VSCodeExt.clipboard context uri uris) as Rc.
  pose proof (run_shape VSCodeExt.temp context uri uris) as Rt.
  destruct (VSCodeExt.picks_of uri uris) as [|u us].
  - left. rewrite Rc, Rt. repeat split; reflexivity.
  - right. rewrite Rc, Rt. unfold VSCodeExt.run_args. cbn [VSCodeExt.mode_name].
    eexists. eexists. eexists. split; reflexivity.
Qed.

(** X5.  The request [run] sends lists the selection in order: the
    multi-selection when it is a non-empty array, whatever the single uri
    is, and the single uri otherwise; and it has a [workspace_root]
    member exactly when a workspace folder is open, with that folder as
    its value. *)
Theorem run_request_members :
  forall (H : VSCodeExt.Host) (mode : VSCodeExt.Mode)
         (context : VSCodeExt.ExtensionContext)
         (uri : option VSCodeExt.Uri) (uris : option (list VSCodeExt.Uri))
         (file : string) (args : list string) (request : Json),
    In (VSCodeExt.Spawn file args request) (VSCodeExt.run mode context uri uris) ->
    member "workspace_root" request = option_map JString VSCodeExt.workspaceFolder
    /\ member "paths" request =
         Some (JArray (map (fun u => JString (VSCodeExt.fsPath u))
                 (match uris with
                  | Some (u :: us) => u :: us
                  | _ => match uri with Some u => [u] | None => [] end
                  end))).
Proof.
  intros H mode context uri uris file args request Hin.
  pose proof (run_shape mode context uri uris) as R.
  fold (VSCodeExt.picks_of uri uris).
  destruct (VSCodeExt.picks_of uri uris) as [|u us]; rewrite R in Hin;
    destruct Hin as [Hin | []]; [discriminate Hin|].
  injection Hin as _ _ <-. unfold VSCodeExt.request_payload. split.
  - cbn. destruct VSCodeExt.workspaceFolder; reflexivity.
  - reflexivity.
Qed.

Lemma run_request_members_witness :
  let first := {| VSCodeExt.fsPath := "/work/project/a.txt" |} in
  let second := {| VSCodeExt.fsPath := "/work/project/b.txt" |} in
  let other := {| VSCodeExt.fsPath := "/work/project/c.txt" |} in
  let request :=
    JObject [ ("paths", JArray [JString "/work/project/a.txt";
                                JString "/work/project/b.txt"]);
              ("workspace_root", JString "/work/project") ] in
  In (VSCodeExt.Spawn "/work/project/target/debug/the-great-combinator"
        (@VSCodeExt.run_args Samples.plain_host VSCodeExt.temp) request)
     (@VSCodeExt.run Samples.plain_host VSCodeExt.temp Samples.sample_context
        (Some other) (Some [first; second]))
  /\ member "workspace_root" request = Some (JString "/work/project").
Proof.
  intros first second other request.
  assert (I : In (VSCodeExt.Spawn "/work/project/target/debug/the-great-combinator"
                    (@VSCodeExt.run_args Samples.plain_host VSCodeExt.temp) request)
                 (@VSCodeExt.run Samples.plain_host VSCodeExt.temp Samples.sample_context
                    (Some other) (Some [first; second])))
    by (left; reflexivity).
  split; [exact I|].
  exact (proj1 (run_request_members Samples.plain_host VSCodeExt.temp
                  Samples.sample_context (Some other) (Some [first; second])
                  _ _ _ I)).
Defined.

(** The temp-mode branch of the handler, case by case on the setting. *)
Ltac by_setting :=
  unfold VSCodeExt.on_close;
  destruct (VSCodeExt.action_is (VSCodeExt.onTempOpen VSCodeExt.configuration)
                                "openAndReveal");
  destruct (VSCodeExt.action_is (VSCodeExt.onTempOpen VSCodeExt.configuration)
                                "openOnly");
  destruct (VSCodeExt.action_is (VSCodeExt.onTempOpen VSCodeExt.configuration)
                                "revealOnly");
  destruct (VSCodeExt.action_is (VSCodeExt.onTempOpen VSCodeExt.configuration)
                                "copyPath");
  destruct (VSCodeExt.action_is (VSCodeExt.onTempOpen VSCodeExt.configuration)
                                "copyAsFile");
  destruct (VSCodeExt.action_is (VSCodeExt.onTempOpen VSCodeExt.configuration)
                                "none").

Section CloseFacts.
Context `{VSCodeExt.Host}.
Import VSCodeExt.

Lemma on_close_failure mode picks out err copy_ok code :
  code <> Some 0%Z ->
  exists msg, on_close mode picks out err copy_ok code = [ShowErrorMessage msg].
Proof.
  intros N. unfold on_close.
  destruct code as [[|p|p]|]; try (eexists; reflexivity).
  contradiction N; reflexivity.
Qed.

Lemma on_close_temp_targets picks out err copy_ok :
  Forall (eq (str_trim out))
         (targets (on_close temp picks out err copy_ok (Some 0%Z))).
Proof.
  by_setting; destruct copy_ok; cbn; repeat constructor.
Qed.

Lemma on_close_copyAsFile picks out err copy_ok :
  onTempOpen configuration = Some "copyAsFile" ->
  on_close temp picks out err copy_ok (Some 0%Z) =
  CopyFileToClipboard (str_trim out) ::
  if copy_ok
  then [ShowInformationMessage "✅ Temp file copied as attachment! Use Ctrl+V to paste."]
  else [ ShowWarningMessage "⚠️ Failed to copy file as attachment. Path copied instead.";
         ClipboardWriteText (str_trim out) ].
Proof. intros E. unfold on_close. rewrite E. reflexivity. Qed.

End CloseFacts.

(** X6.  Whatever the mode, the exit code, the [tgc.onTempOpen] setting
    and the outcome of the attachment copy, the ['close'] handler shows
    exactly one message to the user. *)
Theorem close_shows_exactly_one_message :
  forall (H : VSCodeExt.Host) (mode : VSCodeExt.Mode) (picks : list VSCodeExt.Uri)
         (out err : string) (copy_ok : bool) (code : option Z),
    List.length (VSCodeExt.messages
                   (VSCodeExt.on_close mode picks out err copy_ok code)) = 1.
Proof.
  intros H mode picks out err copy_ok code.
  destruct code as [[|p|p]|]; try reflexivity.
  destruct mode; [reflexivity|].
  by_setting; destruct copy_ok; reflexivity.
Qed.

(** X7.  In temp mode the handler only ever hands on the trimmed primary
    output, which is the temp file's path: on exit status zero everything
    written to the clipboard, opened, revealed or copied as attachment is
    that path, whatever [tgc.onTempOpen] is; on any other exit nothing is
    written, opened, revealed or copied. *)
Theorem temp_mode_hands_on_only_the_path :
  forall (H : VSCodeExt.Host) (picks : list VSCodeExt.Uri)
         (out err : string) (copy_ok : bool) (code : option Z),
    Forall (eq (VSCodeExt.str_trim out))
           (VSCodeExt.targets
              (VSCodeExt.on_close VSCodeExt.temp picks out err copy_ok code))
    /\ (code <> Some 0%Z ->
        VSCodeExt.targets
          (VSCodeExt.on_close VSCodeExt.temp picks out err copy_ok code) = []).
Proof.
  intros H picks out err copy_ok code.
  assert (F : code <> Some 0%Z ->
              VSCodeExt.targets
                (VSCodeExt.on_close VSCodeExt.temp picks out err copy_ok code) = []).
  { intros N.
    destruct (on_close_failure VSCodeExt.temp picks out err copy_ok code N) as [msg ->].
    reflexivity. }
  split; [|exact F].
  destruct code as [[|p|p]|].
  - apply on_close_temp_targets.
  - rewrite F by discriminate. constructor.
  - rewrite F by discriminate. constructor.
  - rewrite F by discriminate. constructor.
Qed.

Lemma temp_mode_hands_on_only_the_path_witness :
  Some 1%Z <> Some 0%Z
  /\ VSCodeExt.targets
       (@VSCodeExt.on_close Samples.plain_host VSCodeExt.temp []
          "/tmp/tgc.txt" "failed" true (Some 1%Z)) = [].
Proof.
  assert (N : Some 1%Z <> Some 0%Z) by discriminate.
  split; [exact N|].
  exact (proj2 (temp_mode_hands_on_only_the_path Samples.plain_host []
                  "/tmp/tgc.txt" "failed" true (Some 1%Z)) N).
Defined.

Section AttachmentFacts.
Context `{VSCodeExt.Host}.
Import VSCodeExt.

Lemma clipboard_helper_supported filePath :
  clipboard_helper filePath = None <-> supported_platform = false.
Proof.
  unfold clipboard_helper, supported_platform.
  destruct (platform =? "linux")%string; [split; discriminate|].
  destruct (platform =? "darwin")%string; [split; discriminate|].
  destruct (platform =? "win32")%string; [split; discriminate|].
  split; reflexivity.
Qed.

Lemma typographic_not_apostrophe c d :
  typographic_quote_bytes c "'" d = false /\ typographic_quote_bytes c d "'" = false.
Proof.
  unfold typographic_quote_bytes. split.
  - rewrite andb_false_r. reflexivity.
  - cbn. rewrite andb_false_r. reflexivity.
Qed.

(** Doubling apostrophes never builds a typographic quote. *)
Lemma quote_width_plain c r tail :
  (c =? "'")%char = false ->
  (quote_width (String c r) =? 3)%nat = false ->
  quote_width (String c (double_apostrophes r ++ "'" ++ tail)) = 0.
Proof.
  intros Ec W. unfold quote_width in *. rewrite Ec in *.
  destruct r as [|d r1].
  - cbn. destruct tail as [|e t]; [reflexivity|].
    rewrite (proj1 (typographic_not_apostrophe c e)). reflexivity.
  - cbn [double_apostrophes]. destruct (d =? "'")%char eqn:Ed.
    + cbn [append]. rewrite (proj1 (typographic_not_apostrophe c "'")). reflexivity.
    + cbn [append]. destruct r1 as [|e r2].
      * cbn. rewrite (proj2 (typographic_not_apostrophe c d)). reflexivity.
      * cbn [double_apostrophes]. destruct (e =? "'")%char eqn:Ee.
        { cbn [append]. rewrite (proj2 (typographic_not_apostrophe c d)). reflexivity. }
        cbn [append].
        destruct (typographic_quote_bytes c d e); [discriminate W | reflexivity].
Qed.

Lemma read_at_apostrophe rest :
  read_single_quoted (Copying 0) (String "'" rest)
  = read_single_quoted (Dropping 0) rest.
Proof. reflexivity. Qed.

Lemma read_pair rest :
  read_single_quoted (Dropping 0) (String "'" rest)
  = keep "'" (read_single_quoted (Copying 0) rest).
Proof. reflexivity. Qed.

Lemma read_close rest :
  quote_width rest = 0 -> read_single_quoted (Dropping 0) rest = Some ("", rest).
Proof.
  intros W. destruct rest as [|c r]; [reflexivity|].
  cbn [read_single_quoted]. rewrite W. reflexivity.
Qed.

Lemma read_plain c rest :
  quote_width (String c rest) = 0 ->
  read_single_quoted (Copying 0) (String c rest)
  = keep c (read_single_quoted (Copying 0) rest).
Proof. intros W. cbn [read_single_quoted]. rewrite W. reflexivity. Qed.

Lemma read_doubled path :
  forall tail,
    no_typographic_quote path = true ->
    quote_width tail = 0 ->
    read_single_quoted (Copying 0) (double_apostrophes path ++ "'" ++ tail)
    = Some (path, tail).
Proof.
  induction path as [|c r IH]; intros tail N T.
  - change (double_apostrophes "" ++ "'" ++ tail) with (String "'" tail).
    rewrite read_at_apostrophe, (read_close _ T). reflexivity.
  - cbn [no_typographic_quote] in N. apply andb_prop in N as [W N].
    apply negb_true_iff in W.
    cbn [double_apostrophes]. destruct (c =? "'")%char eqn:Ec.
    + apply Ascii.eqb_eq in Ec. subst c.
      change (read_single_quoted (Copying 0)
                (String "'" (String "'" (double_apostrophes r ++ "'" ++ tail)))
              = Some (String "'" r, tail)).
      rewrite read_at_apostrophe, read_pair, (IH tail N T). reflexivity.
    + change (read_single_quoted (Copying 0)
                (String c (double_apostrophes r ++ "'" ++ tail))
              = Some (String c r, tail)).
      rewrite (read_plain _ _ (quote_width_plain c r tail Ec W)), (IH tail N T).
      reflexivity.
Qed.

Lemma double_apostrophes_without path :
  no_apostrophe path = true -> double_apostrophes path = path.
Proof.
  induction path as [|c r IH]; intros N; [reflexivity|].
  cbn [no_apostrophe] in N. apply andb_prop in N as [Nc N].
  apply negb_true_iff in Nc. cbn [double_apostrophes]. rewrite Nc, (IH N).
  reflexivity.
Qed.

End AttachmentFacts.

(** X8.  [copyFileToClipboard] calls [spawn] exactly when the platform is
    Linux, macOS or Windows, and it reports success only when, on such a
    platform, the child closed with status zero: never after an ['error']
    event (which is also how a helper that could not be started is
    reported), after [spawn] throwing, or on another platform. *)
Theorem copyFileToClipboard_success_criterion :
  forall (H : VSCodeExt.Host) (filePath : string) (outcome : VSCodeExt.ChildOutcome),
    (snd (VSCodeExt.copyFileToClipboard filePath outcome) = true
     <-> VSCodeExt.supported_platform = true /\ outcome = VSCodeExt.Closed (Some 0%Z))
    /\ (fst (VSCodeExt.copyFileToClipboard filePath outcome) = None
        <-> VSCodeExt.supported_platform = false).
Proof.
  intros H filePath outcome. unfold VSCodeExt.copyFileToClipboard.
  pose proof (clipboard_helper_supported filePath) as S.
  destruct (VSCodeExt.clipboard_helper filePath) as [h|].
  - assert (T : VSCodeExt.supported_platform = true).
    { destruct VSCodeExt.supported_platform; [reflexivity|].
      discriminate (proj2 S eq_refl). }
    rewrite T.
    destruct outcome as [[[|p|p]|]| |]; cbn [fst snd];
      (split; split;
       [ intros X; try discriminate X; split; reflexivity
       | intros [_ X]; try discriminate X; reflexivity
       | intros X; discriminate X
       | intros X; discriminate X ]).
  - rewrite (proj1 S eq_refl). cbn [fst snd]. split; split.
    + discriminate.
    + intros [X _]. discriminate X.
    + reflexivity.
    + reflexivity.
Qed.

(** X9.  On Windows the script handed to PowerShell is the fixed prefix
    followed by a single-quoted literal holding the file path with every
    apostrophe doubled and nothing else changed.  For a path that holds
    none of the typographic single quotes (U+2018 to U+201B, which
    PowerShell also takes for quotes and the code does not double), the
    literal, read by PowerShell's rule, gives back exactly the path and
    closes right before the fixed rest of the script, whatever
    apostrophes the path contains. *)
Theorem windows_path_is_one_literal :
  forall (H : VSCodeExt.Host) (filePath : string),
    VSCodeExt.platform = "win32" ->
    exists body,
      VSCodeExt.clipboard_helper filePath =
        Some {| VSCodeExt.helper_cmd := "powershell";
                VSCodeExt.helper_args :=
                  ["-Command"; VSCodeExt.powershell_prefix ++ body];
                VSCodeExt.helper_stdin := None |}
      /\ (VSCodeExt.no_apostrophe filePath = true ->
          body = filePath ++ "'" ++ VSCodeExt.powershell_suffix)
      /\ (VSCodeExt.no_typographic_quote filePath = true ->
          VSCodeExt.read_single_quoted (VSCodeExt.Copying 0) body
          = Some (filePath, VSCodeExt.powershell_suffix)).
Proof.
  intros H filePath P.
  exists (VSCodeExt.double_apostrophes filePath ++ "'" ++ VSCodeExt.powershell_suffix).
  split; [|split].
  - unfold VSCodeExt.clipboard_helper. rewrite P. reflexivity.
  - intros N. rewrite (double_apostrophes_without _ N). reflexivity.
  - intros N. apply read_doubled; [exact N | reflexivity].
Qed.

Lemma windows_path_is_one_literal_witness :
  let host := Samples.host_on "win32" Samples.default_settings [] in
  @VSCodeExt.platform host = "win32"
  /\ VSCodeExt.no_typographic_quote "C:\Temp\it's 'here'.txt" = true
  /\ exists body,
       @VSCodeExt.clipboard_helper host "C:\Temp\it's 'here'.txt" =
         Some {| VSCodeExt.helper_cmd := "powershell";
                 VSCodeExt.helper_args :=
                   ["-Command"; VSCodeExt.powershell_prefix ++ body];
                 VSCodeExt.helper_stdin := None |}
       /\ VSCodeExt.read_single_quoted (VSCodeExt.Copying 0) body
          = Some ("C:\Temp\it's 'here'.txt", VSCodeExt.powershell_suffix).
Proof.
  intros host. split; [reflexivity|]. split; [reflexivity|].
  destruct (windows_path_is_one_literal host "C:\Temp\it's 'here'.txt" eq_refl)
    as (body & Hh & _ & Hr).
  exists body. split; [exact Hh | exact (Hr eq_refl)].
Defined.

(** X10.  With [tgc.onTempOpen] set to [copyAsFile], a successful temp
    run always leaves the user with something to paste: the handler asks
    for the attachment copy of the temp file, and when that copy does not
    succeed (in particular on a platform without helper, where none is
    even started) it writes the file's path to the clipboard as text and
    warns; when the copy succeeds it writes no text. *)
Theorem copyAsFile_falls_back_to_path :
  forall (H : VSCodeExt.Host) (picks : list VSCodeExt.Uri) (out err : string)
         (outcome : VSCodeExt.ChildOutcome),
    VSCodeExt.onTempOpen VSCodeExt.configuration = Some "copyAsFile" ->
    let path := VSCodeExt.str_trim out in
    let copy := VSCodeExt.copyFileToClipboard path outcome in
    let trace := VSCodeExt.on_close VSCodeExt.temp picks out err (snd copy) (Some 0%Z) in
    VSCodeExt.attachment_copies trace = [path]
    /\ ((snd copy = true /\ VSCodeExt.clipboard_writes trace = [])
        \/ (snd copy = false /\ VSCodeExt.clipboard_writes trace = [path]
            /\ exists warning, trace =
                 [ VSCodeExt.CopyFileToClipboard path;
                   VSCodeExt.ShowWarningMessage warning;
                   VSCodeExt.ClipboardWriteText path ]))
    /\ (VSCodeExt.supported_platform = false ->
        copy = (None, false) /\ VSCodeExt.clipboard_writes trace = [path]).
Proof.
  intros H picks out err outcome E path copy trace.
  assert (T : trace = VSCodeExt.CopyFileToClipboard path ::
                if snd copy
                then [VSCodeExt.ShowInformationMessage
                        "✅ Temp file copied as attachment! Use Ctrl+V to paste."]
                else [ VSCodeExt.ShowWarningMessage
                         "⚠️ Failed to copy file as attachment. Path copied instead.";
                       VSCodeExt.ClipboardWriteText path ])
    by (apply on_close_copyAsFile; exact E).
  split; [|split].
  - rewrite T. destruct (snd copy); reflexivity.
  - destruct (snd copy) eqn:S.
    + left. split; [reflexivity|]. rewrite T. reflexivity.
    + right. split; [reflexivity|]. rewrite T. split; [reflexivity|].
      eexists. reflexivity.
  - intros U.
    assert (C : copy = (None, false)).
    { subst copy. unfold VSCodeExt.copyFileToClipboard.
      rewrite (proj2 (clipboard_helper_supported path) U). reflexivity. }
    split; [exact C|]. rewrite T, C. reflexivity.
Qed.

Lemma copyAsFile_falls_back_to_path_witness :
  VSCodeExt.onTempOpen (@VSCodeExt.configuration Samples.freebsd_host)
    = Some "copyAsFile"
  /\ @VSCodeExt.supported_platform Samples.freebsd_host = false
  /\ VSCodeExt.clipboard_writes
       (@VSCodeExt.on_close Samples.freebsd_host VSCodeExt.temp []
          ("/tmp/tgc.txt" ++ newline) ""
          (snd (@VSCodeExt.copyFileToClipboard Samples.freebsd_host "/tmp/tgc.txt"
                  (VSCodeExt.Closed (Some 0%Z))))
          (Some 0%Z))
     = ["/tmp/tgc.txt"].
Proof.
  split; [reflexivity|]. split; [reflexivity|].
  exact (proj2 (proj2 (proj2 (copyAsFile_falls_back_to_path Samples.freebsd_host []
                  ("/tmp/tgc.txt" ++ newline) "" (VSCodeExt.Closed (Some 0%Z))
                  eq_refl)) eq_refl)).
Defined.


(** X11.  [debugRun] starts a process exactly when a workspace folder is
    open, and otherwise only shows an error.  With a workspace folder
    open it starts, whether or not that file exists, the workspace's
    debug build (the very path [tryDebugBinFromWorkspace] probes), always
    with [--mode clipboard] and a request naming the workspace's
    [README.md] and the workspace folder.  It never writes to the
    clipboard. *)
Theorem debugRun_starts_the_workspace_build :
  forall (H : VSCodeExt.Host),
    existsb VSCodeExt.is_spawn VSCodeExt.debugRun
      = VSCodeExt.truthy VSCodeExt.workspaceFolder
    /\ (VSCodeExt.truthy VSCodeExt.workspaceFolder = false ->
        VSCodeExt.debugRun = [VSCodeExt.ShowErrorMessage "Open workspace first!"])
    /\ (forall wf,
          VSCodeExt.workspaceFolder = Some wf -> wf <> "" ->
          let build := VSCodeExt.path_join [wf; "target"; "debug"; VSCodeExt.exe_name] in
          VSCodeExt.debugRun =
            [VSCodeExt.Spawn build ["--mode"; "clipboard"]
               (JObject [ ("paths",
                           JArray [JString (VSCodeExt.path_join [wf; "README.md"])]);
                          ("workspace_root", JString wf) ])]
          /\ VSCodeExt.tryDebugBinFromWorkspace VSCodeExt.exe_name
             = (if VSCodeExt.pathExists (Some build) then Some build else None))
    /\ (forall p,
          VSCodeExt.tryDebugBinFromWorkspace VSCodeExt.exe_name = Some p ->
          exists request,
            VSCodeExt.debugRun = [VSCodeExt.Spawn p ["--mode"; "clipboard"] request]
            /\ member "workspace_root" request
               = option_map JString VSCodeExt.workspaceFolder)
    /\ VSCodeExt.clipboard_writes VSCodeExt.debugRun = [].
Proof.
  intros H. unfold VSCodeExt.debugRun, VSCodeExt.tryDebugBinFromWorkspace.
  destruct (VSCodeExt.truthy VSCodeExt.workspaceFolder) eqn:T.
  - destruct VSCodeExt.workspaceFolder as [wf|]; [|discriminate T].
    split; [reflexivity|]. split; [discriminate|]. split; [|split; [|reflexivity]].
    + intros wf' E _. injection E as <-. split; reflexivity.
    + intros p. destruct (VSCodeExt.pathExists _); [|discriminate].
      intros E. injection E as <-. eexists. split; reflexivity.
  - split; [reflexivity|]. split; [reflexivity|].
    split; [|split; [discriminate | reflexivity]].
    intros wf E N. rewrite E in T. cbn in T.
    apply String.eqb_neq in N. rewrite N in T. discriminate T.
Qed.

Lemma debugRun_starts_the_workspace_build_witness :
  @VSCodeExt.workspaceFolder Samples.skip_off_host = Some "/work/project"
  /\ @VSCodeExt.tryDebugBinFromWorkspace Samples.skip_off_host
       (@VSCodeExt.exe_name Samples.skip_off_host) = None
  /\ @VSCodeExt.debugRun Samples.skip_off_host =
       [VSCodeExt.Spawn "/work/project/target/debug/the-great-combinator"
          ["--mode"; "clipboard"]
          (JObject [ ("paths", JArray [JString "/work/project/README.md"]);
                     ("workspace_root", JString "/work/project") ])].
Proof.
  split; [reflexivity|]. split; [reflexivity|].
  refine (proj1 (proj1 (proj2 (proj2 (debugRun_starts_the_workspace_build
                                        Samples.skip_off_host)))
                   "/work/project" eq_refl _)).
  discriminate.
Defined.



(* ================================================================== *)
(** * Further properties of the Visual Studio command *)
(* ================================================================== *)

Section VsMoreFacts.
Context `{VsExt.Host}.
Import VsExt.

Lemma collect_paths_nothing selection :
  Forall (fun item => expand_item item = Some []) selection ->
  forall acc, collect_paths selection acc = Some acc.
Proof.
  induction 1 as [|item rest Hi _ IH]; intros acc; [reflexivity|].
  cbn [collect_paths]. unfold expand_item in Hi.
  destruct (Type_ item).
  - discriminate Hi.
  - rewrite Hi, app_nil_r. apply IH.
  - apply IH.
Qed.

Lemma collect_paths_throws selection :
  forall acc,
    collect_paths selection acc = None <->
    Exists (fun item => expand_item item = None) selection.
Proof.
  induction selection as [|item rest IH]; intros acc.
  - cbn. split; [discriminate | intros X; inversion X].
  - cbn [collect_paths]. rewrite Exists_cons. unfold expand_item at 1.
    destruct (Type_ item).
    + rewrite IH. split; [intros X; right; exact X | intros [X | X]; [discriminate X | exact X]].
    + destruct (EnumerateFiles (FullPath item) "*" AllDirectories) as [files|].
      * rewrite IH. split; [intros X; right; exact X | intros [X | X]; [discriminate X | exact X]].
      * split; [intros _; left; reflexivity | reflexivity].
    + rewrite IH. split; [intros X; right; exact X | intros [X | X]; [discriminate X | exact X]].
Qed.

End VsMoreFacts.

(** X13.  When the selection gives no file (it is empty, or holds only
    items that are neither files nor folders, or folders without files),
    [ExecuteAsync] shows the [No selection] box and starts nothing. *)
Theorem nothing_selected_starts_nothing :
  forall (H : VsExt.Host) (selection : list VsExt.SolutionItem),
    Forall (fun item => VsExt.expand_item item = Some []) selection ->
    VsExt.ExecuteAsync selection
    = Some [VsExt.MessageBoxShow "The Great Combinator" "No selection"].
Proof.
  intros H selection F. unfold VsExt.ExecuteAsync.
  rewrite (collect_paths_nothing selection F []). reflexivity.
Qed.

Lemma nothing_selected_starts_nothing_witness :
  let selection :=
    [ {| VsExt.Type_ := VsExt.OtherItem; VsExt.FullPath := "C:\proj\proj.csproj" |} ] in
  Forall (fun item => @VsExt.expand_item Samples.vs_host item = Some []) selection
  /\ @VsExt.ExecuteAsync Samples.vs_host selection
     = Some [VsExt.MessageBoxShow "The Great Combinator" "No selection"].
Proof.
  intros selection.
  assert (F : Forall (fun item => @VsExt.expand_item Samples.vs_host item = Some [])
                     selection)
    by (repeat constructor).
  split; [exact F|].
  exact (nothing_selected_starts_nothing Samples.vs_host selection F).
Defined.

(** X14.  The loop of [ExecuteAsync] that gathers the paths throws
    exactly when the enumeration of some selected folder throws; and when
    it does, [ExecuteAsync] ends with that exception, having shown and
    started nothing, even if files were selected beside the folder. *)
Theorem one_unreadable_folder_aborts :
  forall (H : VsExt.Host) (selection : list VsExt.SolutionItem),
    let unreadable item :=
      VsExt.Type_ item = VsExt.PhysicalFolder
      /\ VsExt.EnumerateFiles (VsExt.FullPath item) "*" VsExt.AllDirectories = None in
    (VsExt.collect_paths selection [] = None <-> Exists unreadable selection)
    /\ (Exists unreadable selection -> VsExt.ExecuteAsync selection = None).
Proof.
  intros H selection unreadable.
  assert (E : VsExt.collect_paths selection [] = None <-> Exists unreadable selection).
  { rewrite collect_paths_throws, !Exists_exists.
    split; intros (item & Hin & X); exists item; (split; [exact Hin|]).
    - unfold VsExt.expand_item in X. subst unreadable. cbn.
      destruct (VsExt.Type_ item); try discriminate X. split; [reflexivity | exact X].
    - destruct X as [T X]. unfold VsExt.expand_item. rewrite T. exact X. }
  split; [exact E|].
  intros X. unfold VsExt.ExecuteAsync. rewrite (proj2 E X). reflexivity.
Qed.

Lemma one_unreadable_folder_aborts_witness :
  Exists (fun item =>
            VsExt.Type_ item = VsExt.PhysicalFolder
            /\ @VsExt.EnumerateFiles Samples.vs_host (VsExt.FullPath item) "*"
                 VsExt.AllDirectories = None)
         Samples.vs_unreadable_selection
  /\ @VsExt.ExecuteAsync Samples.vs_host Samples.vs_unreadable_selection = None.
Proof.
  assert (X : Exists (fun item =>
            VsExt.Type_ item = VsExt.PhysicalFolder
            /\ @VsExt.EnumerateFiles Samples.vs_host (VsExt.FullPath item) "*"
                 VsExt.AllDirectories = None)
         Samples.vs_unreadable_selection).
  { apply Exists_cons_tl. apply Exists_cons_hd. split; reflexivity. }
  split; [exact X|].
  exact (proj2 (one_unreadable_folder_aborts Samples.vs_host
                  Samples.vs_unreadable_selection) X).
Defined.

(** X15.  [ExecuteAsync] starts the engine at most once, and opens
    Explorer only after the engine exited with status zero, then on the
    trimmed primary output; after any other exit it starts nothing more
    and shows one error box whose text is never empty: the error output
    when there is some, the words [CLI failed] otherwise. *)
Theorem explorer_only_after_success :
  forall (H : VsExt.Host) (selection : list VsExt.SolutionItem)
         (trace : list VsExt.Action) (i : VsExt.ProcessStartInfo) (request : Json),
    VsExt.ExecuteAsync selection = Some trace ->
    In (i, request) (VsExt.cli_starts trace) ->
    let p := VsExt.run_process i request in
    VsExt.cli_starts trace = [(i, request)]
    /\ (VsExt.ExitCode p = 0%Z ->
        VsExt.process_starts trace =
          [("explorer.exe", "/select," ++ VsExt.str_Trim (VsExt.StandardOutput p))]
        /\ VsExt.error_boxes trace = [])
    /\ (VsExt.ExitCode p <> 0%Z ->
        VsExt.process_starts trace = []
        /\ exists text,
             VsExt.error_boxes trace = [text]
             /\ text <> ""
             /\ (VsExt.StandardError p <> "" -> text = VsExt.StandardError p)).
Proof.
  intros H selection trace i request E Hin p.
  destruct (cli_starts_of_ExecuteAsync _ _ E _ _ Hin) as (paths & C & Hne & -> & ->).
  unfold VsExt.ExecuteAsync in E. rewrite C in E.
  destruct paths as [|q qs]; [contradiction Hne; reflexivity|].
  injection E as <-. fold p.
  destruct (VsExt.ExitCode p =? 0)%Z eqn:Z0; cbn [negb].
  - apply Z.eqb_eq in Z0. split; [reflexivity|]. split.
    + intros _. split; reflexivity.
    + intros N. contradiction (N Z0).
  - apply Z.eqb_neq in Z0. split; [reflexivity|]. split.
    + intros Z1. contradiction (Z0 Z1).
    + intros _. split; [reflexivity|].
      eexists. split; [reflexivity|].
      destruct (VsExt.StandardError p) as [|c rest]; cbn.
      * split; [discriminate | intros N; contradiction N; reflexivity].
      * split; [discriminate | reflexivity].
Qed.

Lemma explorer_only_after_success_witness :
  let request :=
    @VsExt.payload_of
      ["C:\proj\README.md"; "C:\proj\src\a.cs"; "C:\proj\src\sub\b.cs"] in
  let trace :=
    [ VsExt.StartCli VsExt.psi request;
      VsExt.MessageBoxShowError "The Great Combinator" "CLI failed" ] in
  @VsExt.ExecuteAsync Samples.vs_failing_host Samples.vs_selection = Some trace
  /\ In (VsExt.psi, request) (VsExt.cli_starts trace)
  /\ VsExt.ExitCode (@VsExt.run_process Samples.vs_failing_host VsExt.psi request) <> 0%Z
  /\ VsExt.process_starts trace = [].
Proof.
  intros request trace.
  assert (E : @VsExt.ExecuteAsync Samples.vs_failing_host Samples.vs_selection
              = Some trace) by reflexivity.
  assert (I : In (VsExt.psi, request) (VsExt.cli_starts trace))
    by (left; reflexivity).
  assert (N : VsExt.ExitCode
                (@VsExt.run_process Samples.vs_failing_host VsExt.psi request) <> 0%Z)
    by discriminate.
  split; [exact E|]. split; [exact I|]. split; [exact N|].
  exact (proj1 (proj2 (proj2 (explorer_only_after_success Samples.vs_failing_host
                  Samples.vs_selection trace VsExt.psi request E I)) N)).
Defined.

(* ================================================================== *)
(** * The staging script and the extension *)
(* ================================================================== *)




(** X17.  An installed extension uses its bundled binary: when the user
    has configured no usable path (neither the setting nor the
    environment variable gives a bare name or an existing file) and no
    development build exists, [pickBinary] returns the binary
    [tryPackagedBin] found rather than the name on the search path. *)
Theorem pickBinary_uses_the_bundled_binary :
  forall (H : VSCodeExt.Host) (context : VSCodeExt.ExtensionContext) (p : string),
    (VSCodeExt.cfgExpanded <> "" ->
     is_bare VSCodeExt.cfgExpanded = false
     /\ VSCodeExt.existsSync VSCodeExt.cfgExpanded = false) ->
    (forall e, VSCodeExt.env_TGC_CORE_BIN = Some e -> e <> "" ->
               is_bare e = false /\ VSCodeExt.existsSync e = false) ->
    VSCodeExt.tryDebugBinFromRepo context VSCodeExt.exe_name = None ->
    VSCodeExt.tryDebugBinFromWorkspace VSCodeExt.exe_name = None ->
    VSCodeExt.tryPackagedBin context VSCodeExt.exe_name = Some p ->
    VSCodeExt.pickBinary context = p.
Proof.
  intros H context p Hcfg Henv Hrepo Hwf Hpack.
  unfold VSCodeExt.pickBinary, VSCodeExt.candidates.
  rewrite Hrepo, Hwf, Hpack. cbn [flat_map].
  rewrite !or_null_idem.
  change (VSCodeExt.or_null None) with (@None string). cbn [app].
  assert (Tp : VSCodeExt.truthy (Some p) = true /\ VSCodeExt.existsSync p = true).
  { unfold VSCodeExt.tryPackagedBin in Hpack.
    destruct (VSCodeExt.pathExists (Some _)) eqn:X; [|discriminate Hpack].
    injection Hpack as <-. unfold VSCodeExt.pathExists in X.
    apply andb_prop in X. exact X. }
  destruct Tp as [Tp Xp].
  assert (Skip : forall s rest,
             VSCodeExt.truthy (Some s) = true ->
             is_bare s = false -> VSCodeExt.existsSync s = false ->
             VSCodeExt.pick_loop (s :: rest) = VSCodeExt.pick_loop rest).
  { intros s rest T B X. cbn [VSCodeExt.pick_loop]. unfold is_bare in B.
    rewrite B, (pathExists_truthy _ T), X. reflexivity. }
  assert (Found : forall rest, VSCodeExt.pick_loop (p :: rest) = Some p).
  { intros rest. cbn [VSCodeExt.pick_loop].
    rewrite (pathExists_truthy _ Tp), Xp.
    destruct (VSCodeExt.path_basename p =? p)%string; reflexivity. }
  replace (VSCodeExt.or_null (Some p)) with (Some p)
    by (unfold VSCodeExt.or_null; rewrite Tp; reflexivity).
  destruct (VSCodeExt.or_null (Some VSCodeExt.cfgExpanded)) as [c|] eqn:Ec;
    destruct (VSCodeExt.or_null VSCodeExt.env_TGC_CORE_BIN) as [e|] eqn:Ee;
    cbn [app].
  - apply or_null_some in Ec as [Ec Tc]. injection Ec as <-.
    apply or_null_some in Ee as [Ee Te].
    destruct (Hcfg (truthy_not_empty _ Tc)) as [Bc Xc].
    destruct (Henv e Ee (truthy_not_empty _ Te)) as [Be Xe].
    rewrite (Skip _ _ Tc Bc Xc), (Skip _ _ Te Be Xe), Found. reflexivity.
  - apply or_null_some in Ec as [Ec Tc]. injection Ec as <-.
    destruct (Hcfg (truthy_not_empty _ Tc)) as [Bc Xc].
    rewrite (Skip _ _ Tc Bc Xc), Found. reflexivity.
  - apply or_null_some in Ee as [Ee Te].
    destruct (Henv e Ee (truthy_not_empty _ Te)) as [Be Xe].
    rewrite (Skip _ _ Te Be Xe), Found. reflexivity.
  - rewrite Found. reflexivity.
Qed.

Lemma pickBinary_uses_the_bundled_binary_witness :
  @VSCodeExt.tryPackagedBin Samples.packaged_host Samples.sample_context
     (@VSCodeExt.exe_name Samples.packaged_host)
    = Some "/work/project/vscode-ext/bin/linux-x64/the-great-combinator"
  /\ @VSCodeExt.pickBinary Samples.packaged_host Samples.sample_context
     = "/work/project/vscode-ext/bin/linux-x64/the-great-combinator".
Proof.
  split; [reflexivity|].
  refine (pickBinary_uses_the_bundled_binary Samples.packaged_host
            Samples.sample_context _ _ _ eq_refl eq_refl eq_refl).
  - intros N. contradiction N. reflexivity.
  - intros e E. discriminate E.
Defined.
